(** * check-aws-rds: a Nagios plugin for Amazon RDS monitoring

    A shallow embedding of [src/nagios/check-aws-rds.py] and the proofs of
    the properties its specification states.

    The program is a short decision procedure around three remote calls.
    It is modelled as it is written:
    - Python floats are binary64 values: Rocq's primitive [float];
    - [round(x, 2)] is CPython's correctly rounded two-step conversion
      (the nearest decimal with two places, then the nearest double);
    - printing, remote calls, exceptions and [sys.exit] live in a small
      state-and-exception monad over a [world] that records standard output,
      standard error and the remote calls made so far;
    - the provider (boto3 session, RDS and CloudWatch clients) and the clock
      are an [environment] the program runs against. *)

From stdpp Require Import gmap strings list sorting.
From Stdlib Require Import ZArith Lia Floats.

Set Warnings "-inexact-float".
Set Default Proof Using "Type".
Local Open Scope Z_scope.

(* ===================================================================== *)
(** * Python floats *)
(* ===================================================================== *)

Module PyFloat.

(** [n / d] rounded to the nearest integer, ties to the even one
    ([0 <= n], [0 < d]). *)
Definition round_half_even (n d : Z) : Z :=
  let q := n / d in
  match (2 * (n mod d)) ?= d with
  | Lt => q
  | Gt => q + 1
  | Eq => if Z.even q then q else q + 1
  end.

(** [_Py_dg_dtoa(x, 3, 2, ...)] on the finite non-zero double
    [m * 2^e]: the integer [q] such that [q / 100] is the decimal with two
    places nearest to the exact value of the double (ties to even). *)
Definition dtoa2 (m : positive) (e : Z) : Z :=
  if 0 <=? e then Z.pos m * 2 ^ e * 100
  else round_half_even (Z.pos m * 100) (2 ^ (- e)).

(** [floor (log2 (n / d))] for positive [n] and [d]. *)
Definition floor_log2_quot (n d : Z) : Z :=
  let k := Z.log2 n - Z.log2 d in
  if (if 0 <=? k then n <? d * 2 ^ k else n * 2 ^ (- k) <? d)
  then k - 1 else k.

(** [_Py_dg_strtod]: the double nearest to [(-1)^s * n / d], ties to even
    ([0 <= n], [0 < d]).  The quotient is rounded once, at the exponent of
    the target double (never below the subnormal exponent [-1074]), so that
    the mantissa handed to [binary_normalize] has at most 53 bits, or is
    [2^53], and is converted without a second rounding. *)
Definition strtod (s : bool) (n d : Z) : float :=
  if n =? 0 then (if s then neg_zero else zero)
  else
    let e := Z.max (floor_log2_quot n d - 52) (-1074) in
    let m := if 0 <=? e then round_half_even n (d * 2 ^ e)
             else round_half_even (n * 2 ^ (- e)) d in
    SF2Prim (binary_normalize prec emax (if s then - m else m) e s).

(** [round(x, 2)] on a float ([float___round___impl] and [double_round]
    of CPython): NaN, the infinities and the zeros round to themselves; a
    finite value goes to the decimal string with two places and back. *)
Definition round2 (x : float) : float :=
  match Prim2SF x with
  | S754_finite s m e => strtod s (dtoa2 m e) 100
  | _ => x
  end.

(** [x >= y] on floats (IEEE comparison: false when either is NaN). *)
Definition ge (x y : float) : bool := PrimFloat.leb y x.

(** The order of comparison [SFcompare] reads a float as a triple compared
    lexicographically: its class (negative infinity, negative, zero,
    positive, positive infinity), then exponent and mantissa, both negated
    for a negative float. *)
Definition order_key (x : spec_float) : option (Z * Z * Z) :=
  match x with
  | S754_nan => None
  | S754_infinity true => Some (-2, 0, 0)
  | S754_infinity false => Some (2, 0, 0)
  | S754_zero _ => Some (0, 0, 0)
  | S754_finite true m e => Some (-1, - e, - Z.pos m)
  | S754_finite false m e => Some (1, e, Z.pos m)
  end.

Definition key_le (a b : Z * Z * Z) : Prop :=
  let '(c1, e1, m1) := a in
  let '(c2, e2, m2) := b in
  c1 < c2 \/ (c1 = c2 /\ (e1 < e2 \/ (e1 = e2 /\ m1 <= m2))).

End PyFloat.

(* ===================================================================== *)
(** * Data *)
(* ===================================================================== *)

(** Nagios status codes *)
Definition OK : Z := 0.
Definition WARNING : Z := 1.
Definition CRITICAL : Z := 2.
Definition UNKNOWN : Z := 3.

(** An instance descriptor: the dictionary the provider returns for one
    database instance.  The program never looks inside; it only passes it to
    [pprint] and tests its truth value. *)
Definition descriptor : Type := list (string * string).

(** One element of [response['Datapoints']]: a dictionary with the keys
    ['Timestamp'] (a datetime, here in microseconds since the epoch) and
    ['Average'] (a float). *)
Record Datapoint : Type := { Timestamp : Z; Average : float }.

(** The exceptions a library call can raise: botocore's [ClientError] (an
    error response of the provider), which is the only class the program
    catches, and any other exception.  The string is [str(error)]. *)
Inductive exception : Type :=
| ClientError (message : string)
| OtherException (message : string).

(** Remote calls, with the arguments that vary. *)
Inductive remote_call : Type :=
| DescribeDBInstances (DBInstanceIdentifier : option string)
| GetMetricStatistics (MetricName : option string) (StartTime EndTime Period : Z)
                      (DBInstanceIdentifier : option string).

(** A printed line, before the values formatted into it are rendered. *)
Inductive fragment : Type :=
| Text (s : string)
| FloatRepr (x : float)
| Pformat_descriptor (d : option descriptor)
| Pformat_dict (m : gmap string (list descriptor))
| Usage   (* [parser.format_usage()] *)
| Prog.   (* [parser.prog] *)

Definition line : Type := list fragment.

Record world : Type := {
  stdout : list line;
  stderr : list line;
  calls : list remote_call
}.

Definition initial_world : world := {| stdout := []; stderr := []; calls := [] |}.

(** Python truth values *)
Definition truthy_str (s : option string) : bool :=
  match s with
  | Some (String _ _) => true
  | _ => false
  end.

Definition truthy_dict (d : option descriptor) : bool :=
  match d with
  | Some (_ :: _) => true
  | _ => false
  end.

Definition truthy_list {A : Type} (l : list A) : bool :=
  match l with
  | _ :: _ => true
  | [] => false
  end.

(** [str(x)] for a value that is a string or [None] *)
Definition str (s : option string) : string :=
  match s with
  | Some s => s
  | None => "None"
  end.

Definition dquote : string := String (Ascii.ascii_of_nat 34) EmptyString.

(* ===================================================================== *)
(** * Effects: output, remote calls, exceptions, exit *)
(* ===================================================================== *)

(** How a piece of code ends: normally with a value, with an exception
    raised, or with [SystemExit] raised by [sys.exit] (which no handler of
    the program catches). *)
Inductive result (A : Type) : Type :=
| Normal (a : A)
| Raised (e : exception)
| SystemExit (code : option Z).
Arguments Normal {A} a.
Arguments Raised {A} e.
Arguments SystemExit {A} code.

Definition M (A : Type) : Type := world -> result A * world.

Definition ret {A : Type} (a : A) : M A := fun w => (Normal a, w).

Definition bind {A B : Type} (m : M A) (k : A -> M B) : M B :=
  fun w =>
    match m w with
    | (Normal a, w') => k a w'
    | (Raised e, w') => (Raised e, w')
    | (SystemExit c, w') => (SystemExit c, w')
    end.

Declare Scope py_scope.
Delimit Scope py_scope with py.
Notation "x <- m ;; k" := (bind m (fun x => k))
  (at level 100, m at next level, right associativity) : py_scope.
Notation "m ;; k" := (bind m (fun _ => k))
  (at level 100, right associativity) : py_scope.
Local Open Scope py_scope.

Definition raise {A : Type} (e : exception) : M A := fun w => (Raised e, w).

Definition print (l : line) : M unit :=
  fun w => (Normal tt, {| stdout := stdout w ++ [l]; stderr := stderr w; calls := calls w |}).

Definition eprint (l : line) : M unit :=
  fun w => (Normal tt, {| stdout := stdout w; stderr := stderr w ++ [l]; calls := calls w |}).

(** [sys.exit(code)]; [sys.exit()] is [sys_exit None]. *)
Definition sys_exit {A : Type} (code : option Z) : M A := fun w => (SystemExit code, w).

(** A library call that stays local: it returns or raises. *)
Definition local {A : Type} (r : exception + A) : M A :=
  match r with
  | inl e => raise e
  | inr a => ret a
  end.

(** A call over the network: recorded in [calls], then returns or raises. *)
Definition remote {A : Type} (c : remote_call) (r : exception + A) : M A :=
  fun w =>
    local r {| stdout := stdout w; stderr := stderr w; calls := calls w ++ [c] |}.

(** [try: body except botocore.exceptions.ClientError as error: handler] *)
Definition try_except_ClientError {A : Type} (body : M A) (handler : string -> M A) : M A :=
  fun w =>
    match body w with
    | (Raised (ClientError error), w') => handler error w'
    | r => r
    end.

(** [l[0]] *)
Definition index0 {A : Type} (l : list A) : M A :=
  match l with
  | x :: _ => ret x
  | [] => raise (OtherException "IndexError: list index out of range")
  end.

(** [parser.error(message)] of argparse: the usage and the message go to
    standard error and the process exits with status 2. *)
Definition parser_error {A : Type} (message : string) : M A :=
  eprint [Usage] ;;
  eprint [Prog; Text (": error: " ++ message)] ;;
  sys_exit (Some 2).

(** The exit status of the process for the way [main] ends: the code of
    [sys.exit], 0 for [sys.exit()] and for a normal end, 1 for an uncaught
    exception (the interpreter prints a traceback). *)
Definition exit_status {A : Type} (r : result A) : Z :=
  match r with
  | Normal _ => 0
  | Raised _ => 1
  | SystemExit None => 0
  | SystemExit (Some c) => c
  end.

(* ===================================================================== *)
(** * [sorted] *)
(* ===================================================================== *)

Section Sorted.
Context {A : Type} (key : A -> Z).

(** [x] goes before the first element whose key is not smaller: before
    its equals, which come later in the input. *)
Fixpoint insert_stable (x : A) (l : list A) : list A :=
  match l with
  | [] => [x]
  | y :: l' => if key x <=? key y then x :: l else y :: insert_stable x l'
  end.

(** A stable sort by ascending key. *)
Definition sort_stable (l : list A) : list A := foldr insert_stable [] l.

(** The order of the result of [sort_stable] *)
Definition ascending : relation A := fun a b => key a <= key b.

(** [sorted(l, key=key, reverse=reverse)].  With [reverse=True] CPython
    reverses the list, sorts it (stable, ascending) and reverses the
    result, which keeps elements with equal keys in their input order. *)
Definition sorted (reverse : bool) (l : list A) : list A :=
  if reverse then list.reverse (sort_stable (list.reverse l)) else sort_stable l.
End Sorted.

(* ===================================================================== *)
(** * The provider and the clock *)
(* ===================================================================== *)

(** [describe_db_instances(DBInstanceIdentifier=...)] (or without argument):
    raises, or returns a response whose ['DBInstances'] is the list given. *)
Record RDSClient : Type := {
  describe_db_instances : option string -> exception + list descriptor
}.

(** [get_metric_statistics(Namespace='AWS/RDS', MetricName=..., StartTime=...,
    EndTime=..., Period=..., Statistics=['Average'], Dimensions=[...])]:
    raises, or returns a response in which the key ['Datapoints'] is absent
    ([None]) or holds the list given. *)
Record CloudWatchClient : Type := {
  get_metric_statistics :
    option string -> Z -> Z -> Z -> option string -> exception + option (list Datapoint)
}.

Record environment : Type := {
  (** [boto3.Session(profile_name=profile)] followed by [session.client('rds',
      region_name=region)] and [session.client('cloudwatch', region_name=region)] *)
  boto3_Session : option string -> string -> exception + (RDSClient * CloudWatchClient);
  (** [datetime.datetime.utcnow()], in microseconds *)
  utcnow : Z
}.

(** [datetime.timedelta(minutes=n)], in microseconds *)
Definition timedelta_minutes (n : Z) : Z := n * 60 * 1000000.

(* ===================================================================== *)
(** * class RDS *)
(* ===================================================================== *)

Module RDS.

Record t : Type := {
  region : string;
  profile : option string;
  identifier : option string;
  rds_client : RDSClient;
  cloudwatch_client : CloudWatchClient;
  info : option descriptor
}.

(** [RDS.__init__]: get RDS instance details *)
Definition __init__ (env : environment)
    (region : string) (profile : option string) (identifier : option string) : M t :=
  clients <- local (boto3_Session env profile region) ;;
  let rds_client := fst clients in
  let cloudwatch_client := snd clients in
  info <- (if truthy_str identifier then
             try_except_ClientError
               (response <- remote (DescribeDBInstances identifier)
                                   (describe_db_instances rds_client identifier) ;;
                instance <- index0 response ;;
                ret (Some instance))
               (fun error =>
                  print [Text ("Error retrieving RDS instance: " ++ error)] ;;
                  ret None)
           else ret None) ;;
  ret {| region := region; profile := profile; identifier := identifier;
         rds_client := rds_client; cloudwatch_client := cloudwatch_client;
         info := info |}.

(** [RDS.get_info]: get RDS instance info *)
Definition get_info (self : t) : option descriptor := info self.

(** [RDS.get_list]: get list of available instances by region *)
Definition get_list (self : t) : M (gmap string (list descriptor)) :=
  try_except_ClientError
    (print [Text ("Listing all RDS instances in region " ++ region self)] ;;
     response <- remote (DescribeDBInstances None)
                        (describe_db_instances (rds_client self) None) ;;
     ret {[ region self := response ]})
    (fun error =>
       print [Text ("Error listing RDS instances: " ++ error)] ;;
       ret ∅).

(** [RDS.get_metric]: get RDS metric from CloudWatch *)
Definition get_metric (self : t) (metric : option string)
    (start_time end_time step : Z) : M (option float) :=
  try_except_ClientError
    (response <- remote (GetMetricStatistics metric start_time end_time step (identifier self))
                        (get_metric_statistics (cloudwatch_client self)
                           metric start_time end_time step (identifier self)) ;;
     let datapoints := default [] response in
     if truthy_list datapoints then
       let sorted_datapoints := sorted Timestamp true datapoints in
       first <- index0 sorted_datapoints ;;
       ret (Some (PyFloat.round2 (Average first)))
     else
       print [Text "No datapoints found for the given metric."] ;;
       ret None)
    (fun error =>
       print [Text ("Error retrieving metric: " ++ error)] ;;
       ret None).

End RDS.

(* ===================================================================== *)
(** * main *)
(* ===================================================================== *)

(** The namespace [parser.parse_args()] returns. *)
Module options.
Record t : Type := {
  list : bool;
  profile : option string;
  region : string;
  ident : option string;
  printinfo : bool;
  metric : option string;
  warn : option float;
  crit : option float
}.
End options.

(** [options.crit is not None and result >= options.crit] *)
Definition reaches (threshold : option float) (result : float) : bool :=
  match threshold with
  | Some t => PyFloat.ge result t
  | None => false
  end.

(** The status line [f'{options.ident} {options.metric}: WORD {result}%'] *)
Definition status_line (o : options.t) (word : string) (result : float) : line :=
  [Text (str (options.ident o) ++ " " ++ str (options.metric o) ++ ": " ++ word ++ " ");
   FloatRepr result; Text "%"].

(** [main], from the parsed [options] on. *)
Definition main (env : environment) (o : options.t) : M unit :=
  rds <- RDS.__init__ env (options.region o) (options.profile o) (options.ident o) ;;
  (if options.list o then
     info <- RDS.get_list rds ;;
     print [Text ("List of all DB instances in " ++ options.region o ++ ":")] ;;
     print [Pformat_dict info] ;;
     sys_exit None
   else if options.printinfo o then
     let info := RDS.get_info rds in
     print (if truthy_dict info then [Pformat_descriptor info]
            else [Text ("No DB instance " ++ dquote ++ str (options.ident o) ++ dquote ++ " found.")]) ;;
     sys_exit None
   else if negb (truthy_str (options.ident o)) then
     parser_error "DB identifier is not set."
   else if negb (truthy_str (options.metric o)) then
     parser_error "Metric is not set."
   else ret tt) ;;
  let now := utcnow env in
  result <- RDS.get_metric rds (options.metric o) (now - timedelta_minutes 5) now 60 ;;
  match result with
  | None =>
      print [Text "UNKNOWN Unable to get RDS statistics"] ;;
      sys_exit (Some UNKNOWN)
  | Some result =>
      status <- (if reaches (options.crit o) result then
                   print (status_line o "CRITICAL" result) ;;
                   ret CRITICAL
                 else if reaches (options.warn o) result then
                   print (status_line o "WARNING" result) ;;
                   ret WARNING
                 else
                   print (status_line o "OK" result) ;;
                   ret OK) ;;
      sys_exit (Some status)
  end.

(* ===================================================================== *)
(** * The entry modes, as the specification names them *)
(* ===================================================================== *)

Inductive mode : Type := ListMode | InfoMode | ThresholdCheckMode.

(** The mode selected by the flags: list, then info, then threshold check. *)
Definition mode_of (o : options.t) : mode :=
  if options.list o then ListMode
  else if options.printinfo o then InfoMode
  else ThresholdCheckMode.

(** Lines 97-100 of the source *)
Definition list_mode (rds : RDS.t) (o : options.t) : M unit :=
  info <- RDS.get_list rds ;;
  print [Text ("List of all DB instances in " ++ options.region o ++ ":")] ;;
  print [Pformat_dict info] ;;
  sys_exit None.

(** Lines 102-104 of the source *)
Definition info_mode (rds : RDS.t) (o : options.t) : M unit :=
  let info := RDS.get_info rds in
  print (if truthy_dict info then [Pformat_descriptor info]
         else [Text ("No DB instance " ++ dquote ++ str (options.ident o) ++ dquote ++ " found.")]) ;;
  sys_exit None.

(** Lines 105-126 of the source *)
Definition threshold_check_mode (env : environment) (rds : RDS.t) (o : options.t) : M unit :=
  (if negb (truthy_str (options.ident o)) then
     parser_error "DB identifier is not set."
   else if negb (truthy_str (options.metric o)) then
     parser_error "Metric is not set."
   else ret tt) ;;
  let now := utcnow env in
  result <- RDS.get_metric rds (options.metric o) (now - timedelta_minutes 5) now 60 ;;
  match result with
  | None =>
      print [Text "UNKNOWN Unable to get RDS statistics"] ;;
      sys_exit (Some UNKNOWN)
  | Some result =>
      status <- (if reaches (options.crit o) result then
                   print (status_line o "CRITICAL" result) ;;
                   ret CRITICAL
                 else if reaches (options.warn o) result then
                   print (status_line o "WARNING" result) ;;
                   ret WARNING
                 else
                   print (status_line o "OK" result) ;;
                   ret OK) ;;
      sys_exit (Some status)
  end.

Definition run_mode (m : mode) (env : environment) (rds : RDS.t) (o : options.t) : M unit :=
  match m with
  | ListMode => list_mode rds o
  | InfoMode => info_mode rds o
  | ThresholdCheckMode => threshold_check_mode env rds o
  end.

(** [w] with one more line on standard output *)
Definition printed (w : world) (l : line) : world :=
  {| stdout := stdout w ++ [l]; stderr := stderr w; calls := calls w |}.

(** [w] with one more remote call made *)
Definition called (w : world) (c : remote_call) : world :=
  {| stdout := stdout w; stderr := stderr w; calls := calls w ++ [c] |}.

(** The provider answers every call with a response or with a [ClientError],
    the session is set up, and a describe by identifier that succeeds
    returns at least one instance. *)
Definition no_OtherException {A : Type} (r : exception + A) : Prop :=
  match r with
  | inl (OtherException _) => False
  | _ => True
  end.

Definition provider_errors_only (env : environment) (o : options.t) : Prop :=
  exists rds_client cloudwatch_client,
    boto3_Session env (options.profile o) (options.region o) = inr (rds_client, cloudwatch_client) /\
    (forall id, no_OtherException (describe_db_instances rds_client id)) /\
    (forall id, describe_db_instances rds_client (Some id) <> inr []) /\
    (forall m s e p id, no_OtherException (get_metric_statistics cloudwatch_client m s e p id)).

(** The metric fetch yields no value: the call fails with a provider error
    or returns no samples.  [no_value_log] is the line the fetch logs. *)
Definition no_value_log (r : exception + option (list Datapoint)) : option line :=
  match r with
  | inl (ClientError error) => Some [Text ("Error retrieving metric: " ++ error)]
  | inl (OtherException _) => None
  | inr None | inr (Some []) => Some [Text "No datapoints found for the given metric."]
  | inr (Some (_ :: _)) => None
  end.


(** The two lines [parser.error(message)] writes on standard error *)
Definition usage_error (w : world) (message : string) : world :=
  {| stdout := stdout w;
     stderr := stderr w ++ [[Usage]; [Prog; Text (": error: " ++ message)]];
     calls := calls w |}.

(** [d] is the first sample of [l], in the order of [l], among those with
    the latest timestamp. *)
Definition first_latest (l : list Datapoint) (d : Datapoint) : Prop :=
  exists before after,
    l = before ++ d :: after /\
    Forall (fun x => Timestamp x < Timestamp d) before /\
    Forall (fun x => Timestamp x <= Timestamp d) after.

(* ===================================================================== *)
(** * Sample runs *)
(* ===================================================================== *)

Module Sample.

Definition db1 : descriptor :=
  [("DBInstanceIdentifier", "db1"); ("Engine", "postgres")].
Definition db2 : descriptor :=
  [("DBInstanceIdentifier", "db2"); ("Engine", "mysql")].

Definition rds_client : RDSClient :=
  {| describe_db_instances := fun id =>
       match id with
       | None => inr [db1; db2]
       | Some id =>
           if String.eqb id "db1" then inr [db1]
           else if String.eqb id "db2" then inr [db2]
           else inl (ClientError "An error occurred (DBInstanceNotFound)")
       end |}.

Definition cloudwatch (datapoints : list Datapoint) : CloudWatchClient :=
  {| get_metric_statistics := fun _ _ _ _ _ => inr (Some datapoints) |}.

Definition env (datapoints : list Datapoint) : environment :=
  {| boto3_Session := fun _ _ => inr (rds_client, cloudwatch datapoints);
     utcnow := 1700000000000000 |}.

(** A provider that refuses every call. *)
Definition denied : string := "An error occurred (AccessDenied)".
Definition env_denied : environment :=
  {| boto3_Session := fun _ _ =>
       inr ({| describe_db_instances := fun _ => inl (ClientError denied) |},
            {| get_metric_statistics := fun _ _ _ _ _ => inl (ClientError denied) |});
     utcnow := 1700000000000000 |}.

(** Threshold-check mode: neither [--list] nor [--printinfo] *)
Definition check (ident metric : option string) (warn crit : option float) : options.t :=
  {| options.list := false; options.profile := None; options.region := "us-east-1";
     options.ident := ident; options.printinfo := false; options.metric := metric;
     options.warn := warn; options.crit := crit |}.

(** [-i db1 -m CPUUtilization -w 70 -c 90] *)
Definition check_db1 : options.t :=
  check (Some "db1") (Some "CPUUtilization") (Some 70%float) (Some 90%float).

(** [--list] and [-p -i db1] *)
Definition list_all : options.t :=
  {| options.list := true; options.profile := None; options.region := "us-east-1";
     options.ident := None; options.printinfo := false; options.metric := None;
     options.warn := None; options.crit := None |}.

Definition print_db1 : options.t :=
  {| options.list := false; options.profile := None; options.region := "us-east-1";
     options.ident := Some "db1"; options.printinfo := true; options.metric := None;
     options.warn := None; options.crit := None |}.

Definition rds (datapoints : list Datapoint) (info : option descriptor)
    (ident : option string) : RDS.t :=
  {| RDS.region := "us-east-1"; RDS.profile := None; RDS.identifier := ident;
     RDS.rds_client := rds_client; RDS.cloudwatch_client := cloudwatch datapoints;
     RDS.info := info |}.

Definition at_ (t : Z) (average : float) : Datapoint :=
  {| Timestamp := t; Average := average |}.

(** The world after the constructor has described [db1], and after the
    metric of [check_db1] has been fetched. *)
Definition described : world :=
  called initial_world (DescribeDBInstances (Some "db1")).
Definition fetch : remote_call :=
  GetMetricStatistics (Some "CPUUtilization")
    (1700000000000000 - timedelta_minutes 5) 1700000000000000 60 (Some "db1").
Definition fetched : world := called described fetch.

(** Three samples with distinct timestamps, and two that share one. *)
Definition three : list Datapoint := [at_ 60 10.5; at_ 180 92.1; at_ 120 55.25].
Definition tied : list Datapoint := [at_ 60 1; at_ 60 2].
Definition tied_swapped : list Datapoint := [at_ 60 2; at_ 60 1].

End Sample.

(* ===================================================================== *)
(** * Further notions: the remote calls of a run, edge cases *)
(* ===================================================================== *)

(** The exception [l[0]] raises on an empty list *)
Definition IndexError : exception :=
  OtherException "IndexError: list index out of range".

(** The metric fetch of [main] (lines 110-111 and 58-66): the metric and the
    identifier of the options, the five minutes before [utcnow], a period
    of 60 seconds. *)
Definition fetch_call (env : environment) (o : options.t) : remote_call :=
  GetMetricStatistics (options.metric o) (utcnow env - timedelta_minutes 5) (utcnow env) 60
                      (options.ident o).

(** The remote calls of a run that reaches [sys.exit], in order. *)
Definition expected_calls (env : environment) (o : options.t) : list remote_call :=
  (if truthy_str (options.ident o) then [DescribeDBInstances (options.ident o)] else []) ++
  match mode_of o with
  | ListMode => [DescribeDBInstances None]
  | InfoMode => []
  | ThresholdCheckMode =>
      if truthy_str (options.ident o) && truthy_str (options.metric o)
      then [fetch_call env o] else []
  end.

(** The options when no argument is given: the defaults of lines 84-91. *)
Definition defaults : options.t :=
  {| options.list := false; options.profile := None; options.region := "us-east-1";
     options.ident := None; options.printinfo := false; options.metric := None;
     options.warn := None; options.crit := None |}.

(** A run in threshold-check mode that gets as far as the comparison: both
    arguments are set, the constructor returns, and the fetch returns
    [value], leaving the world [w2]. *)
Definition check_run (env : environment) (o : options.t) (w : world)
    (value : float) (w2 : world) : Prop :=
  mode_of o = ThresholdCheckMode /\
  truthy_str (options.ident o) = true /\
  truthy_str (options.metric o) = true /\
  exists rds w1,
    RDS.__init__ env (options.region o) (options.profile o) (options.ident o) w
    = (Normal rds, w1) /\
    RDS.get_metric rds (options.metric o) (utcnow env - timedelta_minutes 5) (utcnow env) 60 w1
    = (Normal (Some value), w2).

(** The line info mode prints when there is no descriptor *)
Definition not_found_line (o : options.t) : line :=
  [Text ("No DB instance " ++ dquote ++ str (options.ident o) ++ dquote ++ " found.")].

Module Edge.

(** The session cannot be set up (an unknown profile, say). *)
Definition no_session : environment :=
  {| boto3_Session := fun _ _ => inl (OtherException "ProfileNotFound");
     utcnow := 1700000000000000 |}.

(** The describe call succeeds with an empty list of instances. *)
Definition empty_describe : environment :=
  {| boto3_Session := fun _ _ =>
       inr ({| describe_db_instances := fun _ => inr [] |}, Sample.cloudwatch Sample.three);
     utcnow := 1700000000000000 |}.

(** The describe calls are refused, the metric is served. *)
Definition describe_denied : environment :=
  {| boto3_Session := fun _ _ =>
       inr ({| describe_db_instances := fun _ => inl (ClientError Sample.denied) |},
            Sample.cloudwatch Sample.three);
     utcnow := 1700000000000000 |}.

(** The metric fetch fails with an exception that is not a [ClientError]. *)
Definition unreachable : environment :=
  {| boto3_Session := fun _ _ =>
       inr (Sample.rds_client,
            {| get_metric_statistics := fun _ _ _ _ _ =>
                 inl (OtherException "EndpointConnectionError") |});
     utcnow := 1700000000000000 |}.

(** The provider describes two instances for one identifier. *)
Definition two_instances : environment :=
  {| boto3_Session := fun _ _ =>
       inr ({| describe_db_instances := fun _ => inr [Sample.db1; Sample.db2] |},
            Sample.cloudwatch Sample.three);
     utcnow := 1700000000000000 |}.

(** [-p] alone *)
Definition print_nothing : options.t :=
  {| options.list := false; options.profile := None; options.region := "us-east-1";
     options.ident := None; options.printinfo := true; options.metric := None;
     options.warn := None; options.crit := None |}.

End Edge.

(* ===================================================================== *)
(** * Facts about [sorted] *)
(* ===================================================================== *)

Section SortedFacts.
Context {A : Type} (key : A -> Z).

Lemma insert_stable_Permutation x l : insert_stable key x l ≡ₚ x :: l.
Proof.
  induction l as [|y l IH]; simpl; [done|].
  destruct (key x <=? key y); [done|].
  rewrite IH. apply Permutation_swap.
Qed.

Lemma sort_stable_Permutation l : sort_stable key l ≡ₚ l.
Proof.
  induction l as [|x l IH]; simpl; [done|].
  rewrite insert_stable_Permutation. by rewrite IH.
Qed.

Lemma insert_stable_HdRel a x l :
  key a <= key x -> HdRel (ascending key) a l -> HdRel (ascending key) a (insert_stable key x l).
Proof.
  intros Hax Hl. destruct l as [|y l]; simpl.
  - by constructor.
  - destruct (key x <=? key y); constructor; [done|]. by inversion Hl.
Qed.

Lemma insert_stable_Sorted x l :
  Sorted (ascending key) l -> Sorted (ascending key) (insert_stable key x l).
Proof.
  induction 1 as [|y l Hl IH Hhd]; simpl.
  - repeat constructor.
  - destruct (Z.leb_spec (key x) (key y)).
    + constructor; [by constructor|]. by constructor.
    + constructor; [done|]. apply insert_stable_HdRel; [unfold ascending; lia|done].
Qed.

Lemma sort_stable_Sorted l : Sorted (ascending key) (sort_stable key l).
Proof.
  induction l as [|x l IH]; simpl; [constructor|]. by apply insert_stable_Sorted.
Qed.

(** Stability: the elements of any one key keep their input order. *)
Lemma insert_stable_filter k x l :
  filter (fun y => key y = k) (insert_stable key x l)
  = filter (fun y => key y = k) (x :: l).
Proof.
  induction l as [|y l IH]; simpl; [done|].
  destruct (Z.leb_spec (key x) (key y)) as [Hle|Hlt]; [done|].
  rewrite (filter_cons _ y), IH, !filter_cons.
  repeat case_decide; try done; lia.
Qed.

Lemma sort_stable_filter k l :
  filter (fun y => key y = k) (sort_stable key l) = filter (fun y => key y = k) l.
Proof.
  induction l as [|x l IH]; simpl; [done|].
  rewrite insert_stable_filter, !filter_cons, IH. done.
Qed.

(** [sorted(l, key=key, reverse=True)] is a permutation of [l], in
    descending order of key, and stable. *)
Lemma sorted_reverse_Permutation l : sorted key true l ≡ₚ l.
Proof.
  unfold sorted. by rewrite reverse_Permutation, sort_stable_Permutation, reverse_Permutation.
Qed.

Lemma sorted_reverse_Sorted l : Sorted (flip (ascending key)) (sorted key true l).
Proof. unfold sorted. apply Sorted_reverse, sort_stable_Sorted. Qed.

Lemma sorted_reverse_stable k l :
  filter (fun y => key y = k) (sorted key true l) = filter (fun y => key y = k) l.
Proof.
  unfold sorted.
  by rewrite filter_reverse, sort_stable_filter, filter_reverse, reverse_involutive.
Qed.

(** Inserting above everything appends. *)
Lemma insert_stable_above x l :
  Forall (fun y => key y < key x) l -> insert_stable key x l = l ++ [x].
Proof.
  induction 1 as [|y l Hy Hl IH]; simpl; [done|].
  destruct (Z.leb_spec (key x) (key y)); [lia|]. by rewrite IH.
Qed.

(** Inserting an element that is not above the last one keeps the last. *)
Lemma insert_stable_below x s d :
  key x <= key d -> exists s', insert_stable key x (s ++ [d]) = s' ++ [d].
Proof.
  intros Hxd. induction s as [|y s [s' IH]]; simpl.
  - destruct (Z.leb_spec (key x) (key d)); [|lia]. by exists [x].
  - destruct (key x <=? key y).
    + by exists (x :: y :: s).
    + exists (y :: s'). by rewrite IH.
Qed.

Lemma sort_stable_last l2 d l1 :
  Forall (fun y => key y <= key d) l2 ->
  Forall (fun y => key y < key d) l1 ->
  exists s, sort_stable key (l2 ++ d :: l1) = s ++ [d].
Proof.
  intros H2 H1. induction H2 as [|x l2 Hx H2 [s IH]]; simpl.
  - exists (sort_stable key l1). apply insert_stable_above.
    by rewrite sort_stable_Permutation.
  - fold (sort_stable key (l2 ++ d :: l1)). rewrite IH.
    by apply insert_stable_below.
Qed.

(** The head of the descending sort is the first element, in input order,
    among those of greatest key. *)
Lemma sorted_reverse_head before d after :
  Forall (fun y => key y < key d) before ->
  Forall (fun y => key y <= key d) after ->
  exists rest, sorted key true (before ++ d :: after) = d :: rest.
Proof.
  intros Hb Ha. unfold sorted.
  rewrite reverse_app, reverse_cons, <- (assoc_L (++)). simpl.
  destruct (sort_stable_last (reverse after) d (reverse before)) as [s Hs].
  - by apply Forall_reverse.
  - by apply Forall_reverse.
  - rewrite Hs, reverse_snoc. by eexists.
Qed.

(** Every non-empty list has such a first element of greatest key. *)
Lemma first_greatest_exists x l :
  exists before d after,
    x :: l = before ++ d :: after /\
    Forall (fun y => key y < key d) before /\
    Forall (fun y => key y <= key d) after.
Proof.
  revert x. induction l as [|y l IH]; intros x.
  - exists [], x, []. by repeat split.
  - destruct (IH y) as (before & d & after & Heq & Hb & Ha).
    destruct (Z.lt_ge_cases (key x) (key d)) as [Hlt|Hge].
    + exists (x :: before), d, after. rewrite Heq. repeat split; [|done]. by constructor.
    + exists [], x, (y :: l). repeat split; [constructor|].
      rewrite Heq. apply Forall_app. split; [|constructor].
      * eapply Forall_impl; [exact Hb|]. simpl. intros; lia.
      * lia.
      * eapply Forall_impl; [exact Ha|]. simpl. intros; lia.
Qed.
End SortedFacts.

(* ===================================================================== *)
(** * Facts about float comparison and rounding *)
(* ===================================================================== *)

Section FloatFacts.

Lemma SFleb_order_key x y :
  SFleb x y = true <->
  exists a b, PyFloat.order_key x = Some a /\ PyFloat.order_key y = Some b /\ PyFloat.key_le a b.
Proof.
  unfold SFleb, SFcompare.
  destruct x as [[]|[]| |[] m1 e1], y as [[]|[]| |[] m2 e2]; simpl;
    try (split; [discriminate | intros (a & b & Ha & Hb & Hle); simplify_eq; simpl in Hle; lia]);
    try (split; [intros _; do 2 eexists; repeat split; simpl; lia | done]).
  - change (Pos.compare_cont Eq m1 m2) with (Pos.compare m1 m2).
    destruct (Z.compare_spec e1 e2), (Pos.compare_spec m1 m2); simpl;
      (split; [try discriminate; intros _; do 2 eexists; repeat split; simpl; lia
              | try done; intros (a & b & Ha & Hb & Hle); simplify_eq; simpl in Hle; lia]).
  - change (Pos.compare_cont Eq m1 m2) with (Pos.compare m1 m2).
    destruct (Z.compare_spec e1 e2), (Pos.compare_spec m1 m2); simpl;
      (split; [try discriminate; intros _; do 2 eexists; repeat split; simpl; lia
              | try done; intros (a & b & Ha & Hb & Hle); simplify_eq; simpl in Hle; lia]).
Qed.

Lemma key_le_trans a b c : PyFloat.key_le a b -> PyFloat.key_le b c -> PyFloat.key_le a c.
Proof. destruct a as [[??]?], b as [[??]?], c as [[??]?]. simpl. lia. Qed.

Lemma SFleb_trans x y z : SFleb x y = true -> SFleb y z = true -> SFleb x z = true.
Proof.
  rewrite !SFleb_order_key.
  intros (a & b & Ha & Hb & Hab) (b' & c & Hb' & Hc & Hbc). simplify_eq.
  exists a, c. eauto using key_le_trans.
Qed.

(** [<=] on floats is transitive (it is false as soon as a NaN is involved). *)
Lemma leb_trans (x y z : float) :
  PrimFloat.leb x y = true -> PrimFloat.leb y z = true -> PrimFloat.leb x z = true.
Proof. rewrite !leb_spec. apply SFleb_trans. Qed.

(** The documented behaviour of [round] on floats: the value is rounded
    from the exact binary value, halfway cases go to the even choice. *)
Example round2_2_675 : PyFloat.round2 2.675 = 2.67%float.
Proof. reflexivity. Qed.

Example round2_0_125 : PyFloat.round2 0.125 = 0.12%float.
Proof. reflexivity. Qed.

Example round2_0_375 : PyFloat.round2 0.375 = 0.38%float.
Proof. reflexivity. Qed.

Example round2_neg : PyFloat.round2 (-0.001) = (-0)%float.
Proof. reflexivity. Qed.

Example round2_92_1 : PyFloat.round2 92.1 = 92.1%float.
Proof. reflexivity. Qed.

Example round2_nan : PyFloat.round2 nan = nan.
Proof. reflexivity. Qed.

Example round2_infinity : PyFloat.round2 infinity = infinity.
Proof. reflexivity. Qed.

Example round2_large : PyFloat.round2 900719925474099.3 = 900719925474099.2%float.
Proof. reflexivity. Qed.

Example round2_12_345 : PyFloat.round2 12.345 = 12.35%float.
Proof. reflexivity. Qed.

End FloatFacts.

(* ===================================================================== *)
(** * Running the program *)
(* ===================================================================== *)

Lemma bind_Normal {A B : Type} (m : M A) (k : A -> M B) w a w' :
  m w = (Normal a, w') -> bind m k w = k a w'.
Proof. unfold bind. by intros ->. Qed.

Lemma bind_Raised {A B : Type} (m : M A) (k : A -> M B) w e w' :
  m w = (Raised e, w') -> bind m k w = (Raised e, w').
Proof. unfold bind. by intros ->. Qed.

Lemma bind_SystemExit {A B : Type} (m : M A) (k : A -> M B) w c w' :
  m w = (SystemExit c, w') -> bind m k w = (SystemExit c, w').
Proof. unfold bind. by intros ->. Qed.

Lemma bind_ext {A B : Type} (m : M A) (k k' : A -> M B) w :
  (forall a w', k a w' = k' a w') -> bind m k w = bind m k' w.
Proof. intros Hk. unfold bind. by destruct (m w) as [[a|e|c] w']. Qed.

Ltac run :=
  unfold bind, ret, raise, print, eprint, sys_exit, remote, local, index0,
    try_except_ClientError, parser_error, printed, called; simpl.

(** ** The constructor *)

(** What [RDS.__init__] leaves behind when it returns: the fields it was
    given, the clients of the session, and at most one remote call, the
    describe of the identifier, made exactly when an identifier is set. *)
Lemma init_returns env region profile identifier w rds w1 :
  RDS.__init__ env region profile identifier w = (Normal rds, w1) ->
  boto3_Session env profile region = inr (RDS.rds_client rds, RDS.cloudwatch_client rds) /\
  RDS.region rds = region /\ RDS.identifier rds = identifier /\
  stderr w1 = stderr w /\
  calls w1 = calls w ++ (if truthy_str identifier then [DescribeDBInstances identifier] else []).
Proof.
  unfold RDS.__init__. run.
  destruct (boto3_Session env profile region) as [e|[rc cw]]; simpl; [done|].
  destruct (truthy_str identifier); simpl.
  - destruct (describe_db_instances rc identifier) as [[e|e]|[|d ds]]; simpl;
      intros; simplify_eq; simpl; by rewrite ?app_nil_r.
  - intros; simplify_eq; simpl. by rewrite app_nil_r.
Qed.

Lemma init_no_identifier env region profile identifier rc cw w :
  boto3_Session env profile region = inr (rc, cw) ->
  truthy_str identifier = false ->
  RDS.__init__ env region profile identifier w
  = (Normal {| RDS.region := region; RDS.profile := profile; RDS.identifier := identifier;
               RDS.rds_client := rc; RDS.cloudwatch_client := cw; RDS.info := None |}, w).
Proof.
  intros HS Ht. unfold RDS.__init__. run.
  rewrite HS. simpl. rewrite Ht. done.
Qed.

Lemma init_found env region profile identifier rc cw d ds w :
  boto3_Session env profile region = inr (rc, cw) ->
  truthy_str identifier = true ->
  describe_db_instances rc identifier = inr (d :: ds) ->
  RDS.__init__ env region profile identifier w
  = (Normal {| RDS.region := region; RDS.profile := profile; RDS.identifier := identifier;
               RDS.rds_client := rc; RDS.cloudwatch_client := cw; RDS.info := Some d |},
     called w (DescribeDBInstances identifier)).
Proof.
  intros HS Ht Hd. unfold RDS.__init__. run.
  rewrite HS. simpl. rewrite Ht, Hd. done.
Qed.

Lemma init_ClientError env region profile identifier rc cw error w :
  boto3_Session env profile region = inr (rc, cw) ->
  truthy_str identifier = true ->
  describe_db_instances rc identifier = inl (ClientError error) ->
  RDS.__init__ env region profile identifier w
  = (Normal {| RDS.region := region; RDS.profile := profile; RDS.identifier := identifier;
               RDS.rds_client := rc; RDS.cloudwatch_client := cw; RDS.info := None |},
     printed (called w (DescribeDBInstances identifier))
             [Text ("Error retrieving RDS instance: " ++ error)]).
Proof.
  intros HS Ht Hd. unfold RDS.__init__. run.
  rewrite HS. simpl. rewrite Ht, Hd. done.
Qed.

(** ** [get_list] *)

Lemma get_list_response self l w :
  describe_db_instances (RDS.rds_client self) None = inr l ->
  RDS.get_list self w
  = (Normal {[ RDS.region self := l ]},
     called (printed w [Text ("Listing all RDS instances in region " ++ RDS.region self)])
            (DescribeDBInstances None)).
Proof. unfold RDS.get_list. run. intros ->. done. Qed.

Lemma get_list_ClientError self error w :
  describe_db_instances (RDS.rds_client self) None = inl (ClientError error) ->
  RDS.get_list self w
  = (Normal ∅,
     printed (called (printed w [Text ("Listing all RDS instances in region " ++ RDS.region self)])
                     (DescribeDBInstances None))
             [Text ("Error listing RDS instances: " ++ error)]).
Proof. unfold RDS.get_list. run. intros ->. done. Qed.

(** ** [get_metric] *)

Lemma get_metric_value self metric start_time end_time step l d w :
  get_metric_statistics (RDS.cloudwatch_client self)
    metric start_time end_time step (RDS.identifier self) = inr (Some l) ->
  first_latest l d ->
  RDS.get_metric self metric start_time end_time step w
  = (Normal (Some (PyFloat.round2 (Average d))),
     called w (GetMetricStatistics metric start_time end_time step (RDS.identifier self))).
Proof.
  intros Hcall (before & after & -> & Hb & Ha).
  destruct (sorted_reverse_head Timestamp before d after Hb Ha) as [rest Hsorted].
  unfold RDS.get_metric, try_except_ClientError, bind, remote.
  rewrite Hcall. cbn -[sorted].
  replace (truthy_list (before ++ d :: after)) with true by (by destruct before).
  by rewrite Hsorted.
Qed.

Lemma get_metric_no_value self metric start_time end_time step logged w :
  no_value_log (get_metric_statistics (RDS.cloudwatch_client self)
                  metric start_time end_time step (RDS.identifier self)) = Some logged ->
  RDS.get_metric self metric start_time end_time step w
  = (Normal None,
     printed (called w (GetMetricStatistics metric start_time end_time step (RDS.identifier self)))
             logged).
Proof.
  unfold RDS.get_metric. run.
  destruct (get_metric_statistics _ _ _ _ _ _) as [[e|e]|[[|d l]|]]; simpl;
    intros; by simplify_eq.
Qed.

(** [get_metric] returns a value exactly when the provider returns samples,
    and no value exactly when the call fails with a provider error or
    returns none; it raises only what the call raises. *)
Lemma get_metric_cases self metric start_time end_time step w :
  let r := get_metric_statistics (RDS.cloudwatch_client self)
             metric start_time end_time step (RDS.identifier self) in
  let w' := called w (GetMetricStatistics metric start_time end_time step (RDS.identifier self)) in
  match r with
  | inl (OtherException e) =>
      RDS.get_metric self metric start_time end_time step w = (Raised (OtherException e), w')
  | inr (Some (x :: l)) =>
      exists d, first_latest (x :: l) d /\
        RDS.get_metric self metric start_time end_time step w
        = (Normal (Some (PyFloat.round2 (Average d))), w')
  | _ =>
      exists logged, no_value_log r = Some logged /\
        RDS.get_metric self metric start_time end_time step w = (Normal None, printed w' logged)
  end.
Proof.
  intros r w'. subst r w'.
  destruct (get_metric_statistics _ _ _ _ _ _) as [[e|e]|[[|x l]|]] eqn:Hcall.
  - eexists. split; [done|]. apply get_metric_no_value. by rewrite Hcall.
  - unfold RDS.get_metric. run. by rewrite Hcall.
  - eexists. split; [done|]. apply get_metric_no_value. by rewrite Hcall.
  - destruct (first_greatest_exists Timestamp x l) as (before & d & after & Heq & Hb & Ha).
    exists d. split; [by exists before, after|].
    eapply get_metric_value; [done|]. by exists before, after.
  - eexists. split; [done|]. apply get_metric_no_value. by rewrite Hcall.
Qed.

(** ** [main] *)

(** [main] builds the client, then runs the mode the flags select. *)
Lemma main_dispatch env o w :
  main env o w
  = bind (RDS.__init__ env (options.region o) (options.profile o) (options.ident o))
         (fun rds => run_mode (mode_of o) env rds o) w.
Proof.
  unfold main. apply bind_ext. intros rds w1.
  unfold run_mode, mode_of, list_mode, info_mode, threshold_check_mode.
  destruct (options.list o); [|destruct (options.printinfo o)].
  - unfold bind, print, sys_exit. by destruct (RDS.get_list rds w1) as [[?|?|?] ?].
  - done.
  - done.
Qed.

Lemma mode_of_threshold_check o :
  mode_of o = ThresholdCheckMode <-> options.list o = false /\ options.printinfo o = false.
Proof. unfold mode_of. destruct (options.list o), (options.printinfo o); intuition congruence. Qed.

(** In threshold-check mode, once the client is built, [main] is the
    validation of the arguments followed by the check. *)
Lemma main_threshold_check env o w rds w1 :
  mode_of o = ThresholdCheckMode ->
  RDS.__init__ env (options.region o) (options.profile o) (options.ident o) w = (Normal rds, w1) ->
  main env o w = threshold_check_mode env rds o w1.
Proof.
  intros Hmode Hinit. rewrite main_dispatch, (bind_Normal _ _ _ _ _ Hinit). by rewrite Hmode.
Qed.

(** With both the identifier and the metric set, the check is the fetch
    followed by the comparison. *)
Lemma threshold_check_fetched env rds o w1 result w2 :
  truthy_str (options.ident o) = true ->
  truthy_str (options.metric o) = true ->
  RDS.get_metric rds (options.metric o) (utcnow env - timedelta_minutes 5) (utcnow env) 60 w1
  = (Normal result, w2) ->
  threshold_check_mode env rds o w1
  = match result with
    | None => (SystemExit (Some UNKNOWN), printed w2 [Text "UNKNOWN Unable to get RDS statistics"])
    | Some value =>
        if reaches (options.crit o) value
        then (SystemExit (Some CRITICAL), printed w2 (status_line o "CRITICAL" value))
        else if reaches (options.warn o) value
        then (SystemExit (Some WARNING), printed w2 (status_line o "WARNING" value))
        else (SystemExit (Some OK), printed w2 (status_line o "OK" value))
    end.
Proof.
  intros Hident Hmetric Hfetch. unfold threshold_check_mode.
  rewrite Hident, Hmetric. simpl.
  unfold bind at 1. unfold ret at 1.
  rewrite (bind_Normal _ _ _ _ _ Hfetch).
  destruct result as [value|]; [|done].
  destruct (reaches (options.crit o) value); [done|].
  by destruct (reaches (options.warn o) value).
Qed.

Lemma reaches_iff threshold value :
  reaches threshold value = true <->
  exists t, threshold = Some t /\ PrimFloat.leb t value = true.
Proof.
  unfold reaches, PyFloat.ge. destruct threshold as [t|]; split.
  - intros H. by exists t.
  - by intros (t' & [= <-] & H).
  - done.
  - by intros (t' & ? & _).
Qed.

(* ===================================================================== *)
(** * The properties of the specification *)
(* ===================================================================== *)

(** C1.  In threshold-check mode, when a metric value is obtained, the
    comparison has a fixed priority: if the critical threshold is set and the
    value is at least the critical threshold, the program prints the CRITICAL
    status line and exits with 2; otherwise, if the warning threshold is set
    and the value is at least the warning threshold, WARNING and 1; otherwise
    OK and 0.  In particular the outcome is OK when neither threshold is
    set, and CRITICAL whenever critical <= warning <= value. *)
Theorem threshold_priority env o w rds w1 value w2 :
  mode_of o = ThresholdCheckMode ->
  truthy_str (options.ident o) = true ->
  truthy_str (options.metric o) = true ->
  RDS.__init__ env (options.region o) (options.profile o) (options.ident o) w = (Normal rds, w1) ->
  RDS.get_metric rds (options.metric o) (utcnow env - timedelta_minutes 5) (utcnow env) 60 w1
  = (Normal (Some value), w2) ->
  let critical := exists c, options.crit o = Some c /\ PrimFloat.leb c value = true in
  let warning := exists c, options.warn o = Some c /\ PrimFloat.leb c value = true in
  exists status word,
    main env o w = (SystemExit (Some status), printed w2 (status_line o word value)) /\
    exit_status (fst (main env o w)) = status /\
    (critical -> status = 2 /\ word = "CRITICAL") /\
    (~ critical -> warning -> status = 1 /\ word = "WARNING") /\
    (~ critical -> ~ warning -> status = 0 /\ word = "OK") /\
    (options.crit o = None -> options.warn o = None -> status = 0 /\ word = "OK") /\
    (forall c wn, options.crit o = Some c -> options.warn o = Some wn ->
                  PrimFloat.leb c wn = true -> PrimFloat.leb wn value = true ->
                  status = 2 /\ word = "CRITICAL").
Proof.
  intros Hmode Hident Hmetric Hinit Hfetch critical warning.
  rewrite (main_threshold_check _ _ _ _ _ Hmode Hinit).
  rewrite (threshold_check_fetched _ _ _ _ _ _ Hident Hmetric Hfetch).
  assert (Hc : reaches (options.crit o) value = true <-> critical) by apply reaches_iff.
  assert (Hw : reaches (options.warn o) value = true <-> warning) by apply reaches_iff.
  assert (Htrans : forall c wn, options.crit o = Some c -> options.warn o = Some wn ->
            PrimFloat.leb c wn = true -> PrimFloat.leb wn value = true -> critical).
  { intros c wn Hcrit _ Hcw Hwv. exists c. eauto using leb_trans. }
  assert (Hnone_c : options.crit o = None -> ~ critical).
  { intros Hn (c & Hs & _). congruence. }
  assert (Hnone_w : options.warn o = None -> ~ warning).
  { intros Hn (c & Hs & _). congruence. }
  assert (Hdecide : forall status word,
            (reaches (options.crit o) value = true -> status = 2 /\ word = "CRITICAL") ->
            (reaches (options.crit o) value = false -> reaches (options.warn o) value = true ->
             status = 1 /\ word = "WARNING") ->
            (reaches (options.crit o) value = false -> reaches (options.warn o) value = false ->
             status = 0 /\ word = "OK") ->
            (critical -> status = 2 /\ word = "CRITICAL") /\
            (~ critical -> warning -> status = 1 /\ word = "WARNING") /\
            (~ critical -> ~ warning -> status = 0 /\ word = "OK") /\
            (options.crit o = None -> options.warn o = None -> status = 0 /\ word = "OK") /\
            (forall c wn, options.crit o = Some c -> options.warn o = Some wn ->
                          PrimFloat.leb c wn = true -> PrimFloat.leb wn value = true ->
                          status = 2 /\ word = "CRITICAL")).
  { intros status word H2 H1 H0.
    destruct (reaches (options.crit o) value), (reaches (options.warn o) value);
      try specialize (H2 eq_refl); try specialize (H1 eq_refl eq_refl);
      try specialize (H0 eq_refl eq_refl);
      first [ assert (Hcr : critical) by (by apply Hc)
            | assert (Hcr : ~ critical) by (intros X; by apply Hc in X) ];
      first [ assert (Hwr : warning) by (by apply Hw)
            | assert (Hwr : ~ warning) by (intros X; by apply Hw in X) ];
      do 4 (split; [tauto|]);
      intros c wn Hsc Hsw Hcw Hwv; specialize (Htrans _ _ Hsc Hsw Hcw Hwv); tauto. }
  destruct (reaches (options.crit o) value) eqn:Ec;
    [|destruct (reaches (options.warn o) value) eqn:Ew].
  - exists CRITICAL, "CRITICAL". repeat (split; [done|]). by apply Hdecide.
  - exists WARNING, "WARNING". repeat (split; [done|]). by apply Hdecide.
  - exists OK, "OK". repeat (split; [done|]). by apply Hdecide.
Qed.

Lemma threshold_priority_witness :
  main (Sample.env Sample.three) Sample.check_db1 initial_world
  = (SystemExit (Some 2),
     printed Sample.fetched (status_line Sample.check_db1 "CRITICAL" 92.1)).
Proof.
  pose proof (threshold_priority (Sample.env Sample.three) Sample.check_db1 initial_world
                (Sample.rds Sample.three (Some Sample.db1) (Some "db1"))
                Sample.described 92.1 Sample.fetched
                eq_refl eq_refl eq_refl eq_refl eq_refl) as H.
  cbv zeta in H. destruct H as (status & word & Hmain & _ & Hcritical & _).
  destruct Hcritical as [-> ->]; [by exists 90%float|]. exact Hmain.
Defined.

(** In threshold-check mode a missing identifier or metric ends the run in
    [parser.error], after the constructor and before the fetch. *)
Lemma main_usage_error env o w rds w1 :
  mode_of o = ThresholdCheckMode ->
  truthy_str (options.ident o) = false \/ truthy_str (options.metric o) = false ->
  RDS.__init__ env (options.region o) (options.profile o) (options.ident o) w = (Normal rds, w1) ->
  main env o w
  = (SystemExit (Some 2),
     usage_error w1 (if truthy_str (options.ident o) then "Metric is not set."
                     else "DB identifier is not set.")).
Proof.
  intros Hmode Hmissing Hinit.
  rewrite (main_threshold_check _ _ _ _ _ Hmode Hinit). unfold threshold_check_mode.
  destruct (truthy_str (options.ident o)); simpl.
  - destruct Hmissing as [ ? | -> ]; [done|]. simpl. run. unfold usage_error.
    by rewrite <- (assoc_L (++)).
  - run. unfold usage_error. by rewrite <- (assoc_L (++)).
Qed.



(** C2, as stated, fails: in threshold-check mode with the identifier set and
    the metric missing, the usage error comes after a remote call, the
    describe-instance call of the constructor. *)
Lemma usage_error_after_remote_call :
  let run := main (Sample.env []) (Sample.check (Some "db1") None None None) initial_world in
  fst run = SystemExit (Some 2) /\
  stderr (snd run) = stderr (usage_error initial_world "Metric is not set.") /\
  calls (snd run) = [DescribeDBInstances (Some "db1")].
Proof. repeat split. Qed.

(** C2, amended.  In threshold-check mode, when the identifier or the metric
    is missing, the run ends in the parser's usage error, with exit status
    2, before the metric is fetched.  No remote call at all is made when the
    identifier is missing; when the identifier is set and the metric is
    missing, the only remote call is the constructor's describe of that
    identifier, made before the usage error. *)
Theorem usage_error_before_fetch env o w rds w1 :
  mode_of o = ThresholdCheckMode ->
  truthy_str (options.ident o) = false \/ truthy_str (options.metric o) = false ->
  RDS.__init__ env (options.region o) (options.profile o) (options.ident o) w = (Normal rds, w1) ->
  exists message,
    main env o w = (SystemExit (Some 2), usage_error w1 message) /\
    exit_status (fst (main env o w)) = 2 /\
    calls (snd (main env o w))
    = calls w ++ (if truthy_str (options.ident o)
                  then [DescribeDBInstances (options.ident o)] else []).
Proof.
  intros Hmode Hmissing Hinit.
  pose proof (main_usage_error _ _ _ _ _ Hmode Hmissing Hinit) as Hmain.
  eexists. split; [exact Hmain|]. rewrite Hmain. split; [done|]. simpl.
  by destruct (init_returns _ _ _ _ _ _ _ Hinit) as (_ & _ & _ & _ & ->).
Qed.

Lemma usage_error_before_fetch_witness :
  exists message,
    main (Sample.env []) (Sample.check None (Some "CPUUtilization") None None) initial_world
    = (SystemExit (Some 2), usage_error initial_world message) /\
    exit_status (fst (main (Sample.env []) (Sample.check None (Some "CPUUtilization") None None)
                           initial_world)) = 2 /\
    calls (snd (main (Sample.env []) (Sample.check None (Some "CPUUtilization") None None)
                     initial_world))
    = [].
Proof.
  apply (usage_error_before_fetch (Sample.env [])
           (Sample.check None (Some "CPUUtilization") None None) initial_world
           (Sample.rds [] None None) initial_world);
    [reflexivity | left; reflexivity | reflexivity].
Defined.

(** C10.  The usage error of the argument parser (identifier or metric
    missing in threshold-check mode) ends the process with exit status 2,
    which is the CRITICAL status: a run that ends in the usage error and a
    run that reports a CRITICAL alert end with the same exit status. *)
Theorem usage_error_exits_like_CRITICAL env o w rds w1 env' o' w' rds' w1' value w2' :
  mode_of o = ThresholdCheckMode ->
  truthy_str (options.ident o) = false \/ truthy_str (options.metric o) = false ->
  RDS.__init__ env (options.region o) (options.profile o) (options.ident o) w = (Normal rds, w1) ->
  mode_of o' = ThresholdCheckMode ->
  truthy_str (options.ident o') = true ->
  truthy_str (options.metric o') = true ->
  RDS.__init__ env' (options.region o') (options.profile o') (options.ident o') w'
  = (Normal rds', w1') ->
  RDS.get_metric rds' (options.metric o') (utcnow env' - timedelta_minutes 5) (utcnow env') 60 w1'
  = (Normal (Some value), w2') ->
  (exists c, options.crit o' = Some c /\ PrimFloat.leb c value = true) ->
  exit_status (fst (main env o w)) = 2 /\
  CRITICAL = 2 /\
  snd (main env' o' w') = printed w2' (status_line o' "CRITICAL" value) /\
  exit_status (fst (main env' o' w')) = exit_status (fst (main env o w)).
Proof.
  intros Hmode Hmissing Hinit Hmode' Hident' Hmetric' Hinit' Hfetch' Hcritical.
  rewrite (main_usage_error _ _ _ _ _ Hmode Hmissing Hinit).
  rewrite (main_threshold_check _ _ _ _ _ Hmode' Hinit').
  rewrite (threshold_check_fetched _ _ _ _ _ _ Hident' Hmetric' Hfetch').
  apply reaches_iff in Hcritical. by rewrite Hcritical.
Qed.

Lemma usage_error_exits_like_CRITICAL_witness :
  exit_status (fst (main (Sample.env []) (Sample.check (Some "db1") None None None)
                         initial_world)) = 2 /\
  CRITICAL = 2 /\
  snd (main (Sample.env Sample.three) Sample.check_db1 initial_world)
  = printed Sample.fetched (status_line Sample.check_db1 "CRITICAL" 92.1) /\
  exit_status (fst (main (Sample.env Sample.three) Sample.check_db1 initial_world))
  = exit_status (fst (main (Sample.env []) (Sample.check (Some "db1") None None None)
                           initial_world)).
Proof.
  apply (usage_error_exits_like_CRITICAL
           (Sample.env []) (Sample.check (Some "db1") None None None) initial_world
           (Sample.rds [] (Some Sample.db1) (Some "db1")) Sample.described
           (Sample.env Sample.three) Sample.check_db1 initial_world
           (Sample.rds Sample.three (Some Sample.db1) (Some "db1")) Sample.described
           92.1 Sample.fetched);
    [reflexivity | right; reflexivity | reflexivity | reflexivity | reflexivity
    | reflexivity | reflexivity | reflexivity | by exists 90%float].
Defined.

(** C3, as stated, fails: two orderings of the same two samples, which share
    the latest timestamp, give two different values. *)
Lemma latest_sample_depends_on_order :
  Sample.tied ≡ₚ Sample.tied_swapped /\
  fst (RDS.get_metric (Sample.rds Sample.tied None (Some "db1"))
         (Some "CPUUtilization") 0 300 60 initial_world)
  = Normal (Some 1%float) /\
  fst (RDS.get_metric (Sample.rds Sample.tied_swapped None (Some "db1"))
         (Some "CPUUtilization") 0 300 60 initial_world)
  = Normal (Some 2%float).
Proof. split; [apply Permutation_swap|]. split; reflexivity. Qed.

(** C3, amended.  For every non-empty list of samples in which the samples
    that carry the latest timestamp all have the same average (in particular
    when one sample only carries it), [get_metric] returns that average
    rounded to two decimal places, in whatever order the provider returns
    the samples; it returns [None] when the list of samples is absent or
    empty, and when the call fails with a provider error. *)
Theorem latest_sample_wins self metric start_time end_time step w :
  let response := get_metric_statistics (RDS.cloudwatch_client self)
                    metric start_time end_time step (RDS.identifier self) in
  let fetch := GetMetricStatistics metric start_time end_time step (RDS.identifier self) in
  (forall l l' d,
     l ≡ₚ l' ->
     d ∈ l ->
     (forall x, x ∈ l ->
        Timestamp x <= Timestamp d /\ (Timestamp x = Timestamp d -> Average x = Average d)) ->
     response = inr (Some l') ->
     RDS.get_metric self metric start_time end_time step w
     = (Normal (Some (PyFloat.round2 (Average d))), called w fetch)) /\
  (response = inr None \/ response = inr (Some []) \/
   (exists error, response = inl (ClientError error)) ->
   fst (RDS.get_metric self metric start_time end_time step w) = Normal None).
Proof.
  intros response fetch. split.
  - intros l l' d Hperm Hd Hlatest Hresponse.
    assert (Hd' : d ∈ l') by (by rewrite <- Hperm).
    destruct l' as [|x l'']; [by apply elem_of_nil in Hd'|].
    destruct (first_greatest_exists Timestamp x l'') as (before & d0 & after & Heq & Hb & Ha).
    rewrite (get_metric_value self metric start_time end_time step (x :: l'') d0 w Hresponse)
      by (by exists before, after).
    assert (Hd0 : d0 ∈ l).
    { rewrite Hperm, Heq. apply elem_of_app. right. apply elem_of_cons. by left. }
    assert (Hle : Timestamp d <= Timestamp d0).
    { rewrite Heq in Hd'. apply elem_of_app in Hd' as [Hin|Hin].
      - rewrite Forall_forall in Hb. specialize (Hb _ Hin). simpl in Hb. lia.
      - apply elem_of_cons in Hin as [->|Hin]; [lia|].
        rewrite Forall_forall in Ha. by apply Ha. }
    destruct (Hlatest d0 Hd0) as [Hge Havg]. rewrite Havg by lia. done.
  - intros Hnone.
    assert (exists logged, no_value_log response = Some logged) as [logged Hlog].
    { destruct Hnone as [->|[->|[error ->]]]; by eexists. }
    by rewrite (get_metric_no_value _ _ _ _ _ _ w Hlog).
Qed.

Lemma latest_sample_wins_witness :
  RDS.get_metric (Sample.rds Sample.three None (Some "db1"))
    (Some "CPUUtilization") 0 300 60 initial_world
  = (Normal (Some (PyFloat.round2 92.1)),
     called initial_world (GetMetricStatistics (Some "CPUUtilization") 0 300 60 (Some "db1"))) /\
  fst (RDS.get_metric (Sample.rds [] None (Some "db1"))
         (Some "CPUUtilization") 0 300 60 initial_world)
  = Normal None.
Proof.
  split.
  - apply (proj1 (latest_sample_wins (Sample.rds Sample.three None (Some "db1"))
                    (Some "CPUUtilization") 0 300 60 initial_world)
             [Sample.at_ 180 92.1; Sample.at_ 60 10.5; Sample.at_ 120 55.25]
             Sample.three (Sample.at_ 180 92.1)).
    + apply Permutation_swap.
    + apply elem_of_cons. by left.
    + intros x Hx. repeat (apply elem_of_cons in Hx as [->|Hx]); simpl;
        [split; [lia|done] | split; [lia|intros; lia] | split; [lia|intros; lia]
        | by apply elem_of_nil in Hx].
    + reflexivity.
  - apply (proj2 (latest_sample_wins (Sample.rds [] None (Some "db1"))
                    (Some "CPUUtilization") 0 300 60 initial_world)).
    right; left; reflexivity.
Defined.

(** C9.  When several samples share the latest timestamp, [get_metric]
    returns the rounded average of the one that comes first in the order the
    provider returned them (the descending sort is stable); so there are
    inputs, with tied latest timestamps and different averages, on which the
    value returned depends on the order of the samples. *)
Theorem tied_latest_first_wins self metric start_time end_time step before d after w :
  get_metric_statistics (RDS.cloudwatch_client self)
    metric start_time end_time step (RDS.identifier self) = inr (Some (before ++ d :: after)) ->
  Forall (fun x => Timestamp x < Timestamp d) before ->
  Forall (fun x => Timestamp x <= Timestamp d) after ->
  RDS.get_metric self metric start_time end_time step w
  = (Normal (Some (PyFloat.round2 (Average d))),
     called w (GetMetricStatistics metric start_time end_time step (RDS.identifier self))) /\
  (forall t, filter (fun x => Timestamp x = t) (sorted Timestamp true (before ++ d :: after))
             = filter (fun x => Timestamp x = t) (before ++ d :: after)) /\
  exists (l l' : list Datapoint) (v v' : float),
    l ≡ₚ l' /\ PrimFloat.eqb v v' = false /\
    forall self' w',
      (get_metric_statistics (RDS.cloudwatch_client self')
         metric start_time end_time step (RDS.identifier self') = inr (Some l) ->
       fst (RDS.get_metric self' metric start_time end_time step w') = Normal (Some v)) /\
      (get_metric_statistics (RDS.cloudwatch_client self')
         metric start_time end_time step (RDS.identifier self') = inr (Some l') ->
       fst (RDS.get_metric self' metric start_time end_time step w') = Normal (Some v')).
Proof.
  intros Hresponse Hb Ha. split; [|split].
  - apply (get_metric_value _ _ _ _ _ _ d w Hresponse). by exists before, after.
  - intros t. apply sorted_reverse_stable.
  - exists Sample.tied, Sample.tied_swapped, 1%float, 2%float.
    split; [apply Permutation_swap|]. split; [reflexivity|].
    intros self' w'. split; intros Hr.
    + rewrite (get_metric_value _ _ _ _ _ _ (Sample.at_ 60 1) w' Hr); [done|].
      exists [], [Sample.at_ 60 2]. repeat split; [constructor|].
      constructor; [simpl; lia|constructor].
    + rewrite (get_metric_value _ _ _ _ _ _ (Sample.at_ 60 2) w' Hr); [done|].
      exists [], [Sample.at_ 60 1]. repeat split; [constructor|].
      constructor; [simpl; lia|constructor].
Qed.

Lemma tied_latest_first_wins_witness :
  RDS.get_metric (Sample.rds Sample.tied None (Some "db1"))
    (Some "CPUUtilization") 0 300 60 initial_world
  = (Normal (Some (PyFloat.round2 1)),
     called initial_world (GetMetricStatistics (Some "CPUUtilization") 0 300 60 (Some "db1"))).
Proof.
  apply (tied_latest_first_wins (Sample.rds Sample.tied None (Some "db1"))
           (Some "CPUUtilization") 0 300 60 [] (Sample.at_ 60 1) [Sample.at_ 60 2] initial_world).
  - reflexivity.
  - constructor.
  - constructor; [simpl; lia|constructor].
Defined.

(** C5.  When the average of the latest sample is 12.345, the value that
    [get_metric] returns, and that the status line reports, is 12.35. *)
Theorem rounding_12_345 env o w rds w1 l d :
  mode_of o = ThresholdCheckMode ->
  truthy_str (options.ident o) = true ->
  truthy_str (options.metric o) = true ->
  RDS.__init__ env (options.region o) (options.profile o) (options.ident o) w = (Normal rds, w1) ->
  get_metric_statistics (RDS.cloudwatch_client rds) (options.metric o)
    (utcnow env - timedelta_minutes 5) (utcnow env) 60 (RDS.identifier rds) = inr (Some l) ->
  first_latest l d ->
  Average d = 12.345%float ->
  let w2 := called w1 (GetMetricStatistics (options.metric o) (utcnow env - timedelta_minutes 5)
                         (utcnow env) 60 (RDS.identifier rds)) in
  RDS.get_metric rds (options.metric o) (utcnow env - timedelta_minutes 5) (utcnow env) 60 w1
  = (Normal (Some 12.35%float), w2) /\
  exists status word,
    main env o w = (SystemExit (Some status), printed w2 (status_line o word 12.35%float)).
Proof.
  intros Hmode Hident Hmetric Hinit Hresponse Hlatest Havg w2.
  pose proof (get_metric_value _ _ _ _ _ _ _ w1 Hresponse Hlatest) as Hfetch.
  rewrite Havg, round2_12_345 in Hfetch. split; [exact Hfetch|].
  rewrite (main_threshold_check _ _ _ _ _ Hmode Hinit).
  rewrite (threshold_check_fetched _ _ _ _ _ _ Hident Hmetric Hfetch).
  destruct (reaches (options.crit o) 12.35); [by eexists _, _|].
  destruct (reaches (options.warn o) 12.35); by eexists _, _.
Qed.

Lemma rounding_12_345_witness :
  RDS.get_metric (Sample.rds [Sample.at_ 60 12.345] (Some Sample.db1) (Some "db1"))
    (Some "CPUUtilization") (1700000000000000 - timedelta_minutes 5) 1700000000000000 60
    Sample.described
  = (Normal (Some 12.35%float), Sample.fetched) /\
  exists status word,
    main (Sample.env [Sample.at_ 60 12.345]) Sample.check_db1 initial_world
    = (SystemExit (Some status),
       printed Sample.fetched (status_line Sample.check_db1 word 12.35%float)).
Proof.
  apply (rounding_12_345 (Sample.env [Sample.at_ 60 12.345]) Sample.check_db1 initial_world
           (Sample.rds [Sample.at_ 60 12.345] (Some Sample.db1) (Some "db1"))
           Sample.described [Sample.at_ 60 12.345] (Sample.at_ 60 12.345));
    try reflexivity.
  exists [], []. repeat split; constructor.
Defined.

(** ** Provider errors *)

(** When the provider answers with responses and provider errors only, the
    constructor returns. *)
Lemma init_total env o w :
  provider_errors_only env o ->
  exists rds w1,
    RDS.__init__ env (options.region o) (options.profile o) (options.ident o) w = (Normal rds, w1) /\
    (forall id, no_OtherException (describe_db_instances (RDS.rds_client rds) id)) /\
    (forall m s e p id,
       no_OtherException (get_metric_statistics (RDS.cloudwatch_client rds) m s e p id)).
Proof.
  intros (rc & cw & HS & Hdescribe & Hnonempty & Hmetric).
  destruct (truthy_str (options.ident o)) eqn:Hident.
  - destruct (options.ident o) as [id|] eqn:Hid; [|done].
    pose proof (Hdescribe (Some id)) as Hraised. specialize (Hnonempty id).
    destruct (describe_db_instances rc (Some id)) as [[error|error]|[|d ds]] eqn:Hd; try done.
    + eexists _, _. split; [by apply init_ClientError|]. done.
    + eexists _, _. split; [by eapply init_found|]. done.
  - eexists _, _. split; [by apply init_no_identifier|]. done.
Qed.

(** Each mode ends in [sys.exit] with a Nagios status, or in the usage error. *)
Ltac status_code :=
  simpl; unfold OK, WARNING, CRITICAL, UNKNOWN; rewrite !elem_of_cons; auto 6.

Lemma run_mode_exits m env rds o w1 :
  (forall id, no_OtherException (describe_db_instances (RDS.rds_client rds) id)) ->
  (forall m s e p id,
     no_OtherException (get_metric_statistics (RDS.cloudwatch_client rds) m s e p id)) ->
  exists code w2,
    run_mode m env rds o w1 = (SystemExit code, w2) /\
    exit_status (SystemExit (A := unit) code) ∈ [OK; WARNING; CRITICAL; UNKNOWN].
Proof.
  intros Hdescribe Hmetric. destruct m; simpl.
  - unfold list_mode. specialize (Hdescribe None).
    destruct (describe_db_instances (RDS.rds_client rds) None) as [[error|error]|l] eqn:Hd;
      [|done|].
    + rewrite (bind_Normal _ _ _ _ _ (get_list_ClientError rds error w1 Hd)).
      eexists _, _. split; [reflexivity|]. status_code.
    + rewrite (bind_Normal _ _ _ _ _ (get_list_response rds l w1 Hd)).
      eexists _, _. split; [reflexivity|]. status_code.
  - eexists _, _. split; [reflexivity|]. status_code.
  - destruct (truthy_str (options.ident o)) eqn:Hident;
      [destruct (truthy_str (options.metric o)) eqn:Hm|].
    + pose proof (get_metric_cases rds (options.metric o)
                    (utcnow env - timedelta_minutes 5) (utcnow env) 60 w1) as Hcases.
      specialize (Hmetric (options.metric o) (utcnow env - timedelta_minutes 5)
                    (utcnow env) 60 (RDS.identifier rds)).
      cbv zeta in Hcases.
      destruct (get_metric_statistics _ _ _ _ _ _) as [[error|error]|[[|x l]|]];
        try done;
        [destruct Hcases as (logged & _ & Hfetch)
        |destruct Hcases as (logged & _ & Hfetch)
        |destruct Hcases as (d & _ & Hfetch)
        |destruct Hcases as (logged & _ & Hfetch)];
        rewrite (threshold_check_fetched _ _ _ _ _ _ Hident Hm Hfetch);
        try (eexists _, _; split; [reflexivity|]; status_code).
      destruct (reaches (options.crit o) _);
        [|destruct (reaches (options.warn o) _)];
        eexists _, _; (split; [reflexivity|]); status_code.
    + unfold threshold_check_mode. rewrite Hident, Hm. simpl.
      eexists _, _. split; [reflexivity|]. status_code.
    + unfold threshold_check_mode. rewrite Hident. simpl.
      eexists _, _. split; [reflexivity|]. status_code.
Qed.

(** An exception that is not a [ClientError] is not caught: raised by the
    metric fetch, it ends [main] with a traceback. *)
Lemma other_exception_propagates self metric start_time end_time step e w :
  get_metric_statistics (RDS.cloudwatch_client self)
    metric start_time end_time step (RDS.identifier self) = inl (OtherException e) ->
  fst (RDS.get_metric self metric start_time end_time step w) = Raised (OtherException e).
Proof. intros Hr. unfold RDS.get_metric. run. by rewrite Hr. Qed.

(** C6, as stated, fails: a failure of a provider call that botocore does not
    raise as a [ClientError] (here the metric fetch cannot reach the
    endpoint) is not caught where the call is made, nothing is logged for
    it on standard output, and the run ends with the exception, that is with
    a traceback, instead of [sys.exit]. *)
Lemma provider_failure_not_caught :
  let run := main Edge.unreachable Sample.check_db1 initial_world in
  fst run = Raised (OtherException "EndpointConnectionError") /\
  stdout (snd run) = [] /\
  calls (snd run) = [DescribeDBInstances (Some "db1"); Sample.fetch] /\
  exit_status (fst run) = 1 /\
  fst (RDS.get_metric
         {| RDS.region := "us-east-1"; RDS.profile := None; RDS.identifier := Some "db1";
            RDS.rds_client := Sample.rds_client;
            RDS.cloudwatch_client :=
              {| get_metric_statistics := fun _ _ _ _ _ =>
                   inl (OtherException "EndpointConnectionError") |};
            RDS.info := Some Sample.db1 |}
         (Some "CPUUtilization") 0 300 60 initial_world)
  = Raised (OtherException "EndpointConnectionError").
Proof. repeat split. Qed.

(** C6, amended.  A provider error that botocore raises as a [ClientError],
    in any of the three remote calls, is caught where the call is made,
    logged on standard output and turned into an absent or empty result:
    the constructor leaves [info] unset, [get_list] returns the empty
    mapping, [get_metric] returns [None].  When the session is set up, the
    remote calls raise no exception other than [ClientError] and a describe
    by identifier that succeeds returns at least one instance, the process
    always exits through [sys.exit] or the parser's usage error, with one of
    the status codes 0, 1, 2, 3, and never with a traceback. *)
Theorem provider_errors_are_caught :
  (forall env region profile identifier rc cw error w,
     boto3_Session env profile region = inr (rc, cw) ->
     truthy_str identifier = true ->
     describe_db_instances rc identifier = inl (ClientError error) ->
     exists rds,
       RDS.__init__ env region profile identifier w
       = (Normal rds,
          printed (called w (DescribeDBInstances identifier))
                  [Text ("Error retrieving RDS instance: " ++ error)]) /\
       RDS.get_info rds = None) /\
  (forall self error w,
     describe_db_instances (RDS.rds_client self) None = inl (ClientError error) ->
     RDS.get_list self w
     = (Normal ∅,
        printed (called (printed w [Text ("Listing all RDS instances in region "
                                          ++ RDS.region self)])
                        (DescribeDBInstances None))
                [Text ("Error listing RDS instances: " ++ error)])) /\
  (forall self metric start_time end_time step error w,
     get_metric_statistics (RDS.cloudwatch_client self)
       metric start_time end_time step (RDS.identifier self) = inl (ClientError error) ->
     RDS.get_metric self metric start_time end_time step w
     = (Normal None,
        printed (called w (GetMetricStatistics metric start_time end_time step
                             (RDS.identifier self)))
                [Text ("Error retrieving metric: " ++ error)])) /\
  (forall env o w,
     provider_errors_only env o ->
     exists code w',
       main env o w = (SystemExit code, w') /\
       exit_status (fst (main env o w)) ∈ [0; 1; 2; 3]).
Proof.
  split; [|split; [|split]].
  - intros env region profile identifier rc cw error w HS Hid Hd.
    eexists. split; [by apply init_ClientError|done].
  - intros self error w Hd. by apply get_list_ClientError.
  - intros self metric start_time end_time step error w Hr.
    apply get_metric_no_value. by rewrite Hr.
  - intros env o w Honly.
    destruct (init_total env o w Honly) as (rds & w1 & Hinit & Hdescribe & Hmetric).
    destruct (run_mode_exits (mode_of o) env rds o w1 Hdescribe Hmetric)
      as (code & w2 & Hrun & Hstatus).
    exists code, w2.
    rewrite main_dispatch, (bind_Normal _ _ _ _ _ Hinit), Hrun. done.
Qed.

Lemma provider_errors_are_caught_witness :
  (exists rds,
     RDS.__init__ Sample.env_denied "us-east-1" None (Some "db1") initial_world
     = (Normal rds,
        printed Sample.described [Text ("Error retrieving RDS instance: " ++ Sample.denied)]) /\
     RDS.get_info rds = None) /\
  (exists code w',
     main Sample.env_denied Sample.check_db1 initial_world = (SystemExit code, w') /\
     exit_status (fst (main Sample.env_denied Sample.check_db1 initial_world)) ∈ [0; 1; 2; 3]).
Proof.
  split.
  - apply (proj1 provider_errors_are_caught Sample.env_denied "us-east-1" None (Some "db1")
             {| describe_db_instances := fun _ => inl (ClientError Sample.denied) |}
             {| get_metric_statistics := fun _ _ _ _ _ => inl (ClientError Sample.denied) |}
             Sample.denied initial_world); reflexivity.
  - apply (proj2 (proj2 (proj2 provider_errors_are_caught))
             Sample.env_denied Sample.check_db1 initial_world).
    eexists _, _. split; [reflexivity|]. repeat split; simpl; try done.
Defined.



(** C8.  The three entry modes exclude one another and are chosen in the
    order list, info, threshold check.  With the list flag set, list mode
    runs, whatever the info flag, the metric and the thresholds are.
    Otherwise, with the info flag set, info mode prints the descriptor the
    constructor fetched, or the "not found" message when there is none, and
    exits with status 0.  Otherwise threshold-check mode runs. *)
Theorem modes_in_precedence env o w rds w1 :
  RDS.__init__ env (options.region o) (options.profile o) (options.ident o) w = (Normal rds, w1) ->
  main env o w = run_mode (mode_of o) env rds o w1 /\
  (options.list o = true ->
   mode_of o = ListMode /\
   main env o w = list_mode rds o w1 /\
   forall o',
     options.list o' = true -> options.region o' = options.region o ->
     options.profile o' = options.profile o -> options.ident o' = options.ident o ->
     main env o' w = main env o w) /\
  (options.list o = false -> options.printinfo o = true ->
   mode_of o = InfoMode /\
   main env o w
   = (SystemExit None,
      printed w1 (match RDS.info rds with
                  | Some (field :: fields) => [Pformat_descriptor (Some (field :: fields))]
                  | _ => [Text ("No DB instance " ++ dquote ++ str (options.ident o)
                                ++ dquote ++ " found.")]
                  end)) /\
   exit_status (fst (main env o w)) = 0) /\
  (options.list o = false -> options.printinfo o = false ->
   mode_of o = ThresholdCheckMode /\
   main env o w = threshold_check_mode env rds o w1).
Proof.
  intros Hinit.
  assert (Hmain : forall o',
            options.region o' = options.region o -> options.profile o' = options.profile o ->
            options.ident o' = options.ident o ->
            main env o' w = run_mode (mode_of o') env rds o' w1).
  { intros o' Hr Hp Hi.
    rewrite main_dispatch, Hr, Hp, Hi. by rewrite (bind_Normal _ _ _ _ _ Hinit). }
  pose proof (Hmain o eq_refl eq_refl eq_refl) as Ho.
  split; [done|]. split; [|split].
  - intros Hlist.
    assert (Hmode : mode_of o = ListMode) by (unfold mode_of; by rewrite Hlist).
    split; [done|]. rewrite Ho, Hmode. split; [done|].
    intros o' Hlist' Hr Hp Hi. rewrite (Hmain o' Hr Hp Hi).
    unfold mode_of. rewrite Hlist'. simpl. unfold list_mode. by rewrite Hr.
  - intros Hlist Hinfo.
    assert (Hmode : mode_of o = InfoMode) by (unfold mode_of; by rewrite Hlist, Hinfo).
    split; [done|]. rewrite Ho, Hmode. simpl. unfold info_mode, RDS.get_info.
    by destruct (RDS.info rds) as [[|field fields]|].
  - intros Hlist Hinfo.
    assert (Hmode : mode_of o = ThresholdCheckMode) by (unfold mode_of; by rewrite Hlist, Hinfo).
    split; [done|]. by rewrite Ho, Hmode.
Qed.

Lemma modes_in_precedence_witness :
  main (Sample.env []) Sample.print_db1 initial_world
  = (SystemExit None, printed Sample.described [Pformat_descriptor (Some Sample.db1)]).
Proof.
  pose proof (modes_in_precedence (Sample.env []) Sample.print_db1 initial_world
                (Sample.rds [] (Some Sample.db1) (Some "db1")) Sample.described eq_refl)
    as (_ & _ & Hinfo & _).
  destruct (Hinfo eq_refl eq_refl) as (_ & Hmain & _). exact Hmain.
Defined.


(* ===================================================================== *)
(** * Further properties of the code *)
(* ===================================================================== *)

(** ** More on float comparison *)

Lemma SFltb_not_SFleb x y : SFltb x y = true -> SFleb y x = false.
Proof.
  unfold SFltb, SFleb, SFcompare.
  destruct x as [[]|[]| |[] m1 e1], y as [[]|[]| |[] m2 e2]; simpl; try done.
  - change (Pos.compare_cont Eq m1 m2) with (Pos.compare m1 m2).
    change (Pos.compare_cont Eq m2 m1) with (Pos.compare m2 m1).
    rewrite (Z.compare_antisym e1 e2), (Pos.compare_antisym m1 m2).
    by destruct (e1 ?= e2), (m1 ?= m2)%positive.
  - change (Pos.compare_cont Eq m1 m2) with (Pos.compare m1 m2).
    change (Pos.compare_cont Eq m2 m1) with (Pos.compare m2 m1).
    rewrite (Z.compare_antisym e1 e2), (Pos.compare_antisym m1 m2).
    by destruct (e1 ?= e2), (m1 ?= m2)%positive.
Qed.

(** [x < y] excludes [y <= x]. *)
Lemma ltb_not_leb (x y : float) : PrimFloat.ltb x y = true -> PrimFloat.leb y x = false.
Proof. rewrite ltb_spec, leb_spec. apply SFltb_not_SFleb. Qed.

Lemma Prim2SF_is_nan (x : float) : PrimFloat.is_nan x = true -> Prim2SF x = S754_nan.
Proof. intros Hnan. unfold Prim2SF. by rewrite Hnan. Qed.

(** A comparison with a NaN on either side is false. *)
Lemma leb_nan (x y : float) :
  PrimFloat.is_nan x = true \/ PrimFloat.is_nan y = true -> PrimFloat.leb x y = false.
Proof.
  rewrite leb_spec. intros [Hnan|Hnan]; rewrite (Prim2SF_is_nan _ Hnan); [done|].
  unfold SFleb, SFcompare. by destruct (Prim2SF x) as [[]|[]| |[] ? ?].
Qed.

(** ** Every outcome of the constructor and of [get_list] *)

Lemma init_outcome env region profile identifier w :
  match boto3_Session env profile region with
  | inl e => RDS.__init__ env region profile identifier w = (Raised e, w)
  | inr (rc, cw) =>
      let built info :=
        {| RDS.region := region; RDS.profile := profile; RDS.identifier := identifier;
           RDS.rds_client := rc; RDS.cloudwatch_client := cw; RDS.info := info |} in
      let w1 := called w (DescribeDBInstances identifier) in
      if truthy_str identifier then
        match describe_db_instances rc identifier with
        | inl (ClientError error) =>
            RDS.__init__ env region profile identifier w
            = (Normal (built None),
               printed w1 [Text ("Error retrieving RDS instance: " ++ error)])
        | inl (OtherException error) =>
            RDS.__init__ env region profile identifier w = (Raised (OtherException error), w1)
        | inr [] =>
            RDS.__init__ env region profile identifier w = (Raised IndexError, w1)
        | inr (d :: _) =>
            RDS.__init__ env region profile identifier w = (Normal (built (Some d)), w1)
        end
      else RDS.__init__ env region profile identifier w = (Normal (built None), w)
  end.
Proof.
  unfold RDS.__init__. run.
  destruct (boto3_Session env profile region) as [e|[rc cw]]; simpl; [done|].
  destruct (truthy_str identifier); simpl; [|done].
  by destruct (describe_db_instances rc identifier) as [[error|error]|[|d ds]].
Qed.

Lemma get_list_outcome self w :
  let w1 := called (printed w [Text ("Listing all RDS instances in region " ++ RDS.region self)])
                   (DescribeDBInstances None) in
  match describe_db_instances (RDS.rds_client self) None with
  | inl (ClientError error) =>
      RDS.get_list self w
      = (Normal ∅, printed w1 [Text ("Error listing RDS instances: " ++ error)])
  | inl (OtherException error) => RDS.get_list self w = (Raised (OtherException error), w1)
  | inr l => RDS.get_list self w = (Normal {[ RDS.region self := l ]}, w1)
  end.
Proof.
  unfold RDS.get_list. run.
  by destruct (describe_db_instances (RDS.rds_client self) None) as [[error|error]|l].
Qed.

(** A run that gets as far as the comparison ends as the thresholds decide. *)
Lemma check_run_main env o w value w2 :
  check_run env o w value w2 ->
  main env o w
  = if reaches (options.crit o) value
    then (SystemExit (Some CRITICAL), printed w2 (status_line o "CRITICAL" value))
    else if reaches (options.warn o) value
    then (SystemExit (Some WARNING), printed w2 (status_line o "WARNING" value))
    else (SystemExit (Some OK), printed w2 (status_line o "OK" value)).
Proof.
  intros (Hmode & Hident & Hmetric & rds & w1 & Hinit & Hfetch).
  rewrite (main_threshold_check _ _ _ _ _ Hmode Hinit).
  by rewrite (threshold_check_fetched _ _ _ _ _ _ Hident Hmetric Hfetch).
Qed.

Lemma reaches_false threshold value :
  (forall t, threshold = Some t -> PrimFloat.leb t value = false) ->
  reaches threshold value = false.
Proof.
  intros Hno. destruct (reaches threshold value) eqn:Hr; [|done].
  apply reaches_iff in Hr as (t & Ht & Hle). rewrite (Hno t Ht) in Hle. done.
Qed.

Lemma check_run_single warn crit v :
  check_run (Sample.env [Sample.at_ 60 v])
    (Sample.check (Some "db1") (Some "CPUUtilization") warn crit)
    initial_world (PyFloat.round2 v) Sample.fetched.
Proof.
  repeat split.
  exists (Sample.rds [Sample.at_ 60 v] (Some Sample.db1) (Some "db1")), Sample.described.
  split; reflexivity.
Defined.

(** ** The comparison *)

(** X1.  A value strictly below every threshold that is set is reported OK,
    with exit status 0. *)
Theorem below_thresholds_is_OK env o w value w2 :
  check_run env o w value w2 ->
  (forall t, options.crit o = Some t -> PrimFloat.ltb value t = true) ->
  (forall t, options.warn o = Some t -> PrimFloat.ltb value t = true) ->
  main env o w = (SystemExit (Some 0), printed w2 (status_line o "OK" value)).
Proof.
  intros Hrun Hcrit Hwarn. rewrite (check_run_main _ _ _ _ _ Hrun).
  rewrite !reaches_false; [done|..]; intros t Ht; apply ltb_not_leb; auto.
Qed.

Lemma below_thresholds_is_OK_witness :
  main (Sample.env [Sample.at_ 60 12.345]) Sample.check_db1 initial_world
  = (SystemExit (Some 0), printed Sample.fetched (status_line Sample.check_db1 "OK" 12.35)).
Proof.
  apply (below_thresholds_is_OK (Sample.env [Sample.at_ 60 12.345]) Sample.check_db1
           initial_world 12.35 Sample.fetched (check_run_single _ _ 12.345));
    intros t [= <-]; reflexivity.
Defined.

(** X2.  A value that reaches the warning threshold and is strictly below
    the critical threshold (or with no critical threshold set) is reported
    WARNING, with exit status 1. *)
Theorem warning_below_critical env o w value w2 wn :
  check_run env o w value w2 ->
  options.warn o = Some wn ->
  PrimFloat.leb wn value = true ->
  (forall c, options.crit o = Some c -> PrimFloat.ltb value c = true) ->
  main env o w = (SystemExit (Some 1), printed w2 (status_line o "WARNING" value)).
Proof.
  intros Hrun Hwarn Hreach Hcrit. rewrite (check_run_main _ _ _ _ _ Hrun).
  rewrite (reaches_false (options.crit o)) by (intros t Ht; apply ltb_not_leb; auto).
  replace (reaches (options.warn o) value) with true; [done|].
  symmetry. apply reaches_iff. by exists wn.
Qed.

Lemma warning_below_critical_witness :
  main (Sample.env [Sample.at_ 60 75.5]) Sample.check_db1 initial_world
  = (SystemExit (Some 1), printed Sample.fetched (status_line Sample.check_db1 "WARNING" 75.5)).
Proof.
  apply (warning_below_critical (Sample.env [Sample.at_ 60 75.5]) Sample.check_db1
           initial_world 75.5 Sample.fetched 70 (check_run_single _ _ 75.5));
    [reflexivity | reflexivity | intros c [= <-]; reflexivity].
Defined.

(** X3.  A NaN never alerts: when the value fetched is NaN, or when every
    threshold that is set is NaN, the outcome is OK. *)
Theorem nan_is_OK env o w value w2 :
  check_run env o w value w2 ->
  PrimFloat.is_nan value = true \/
  ((forall t, options.crit o = Some t -> PrimFloat.is_nan t = true) /\
   (forall t, options.warn o = Some t -> PrimFloat.is_nan t = true)) ->
  main env o w = (SystemExit (Some 0), printed w2 (status_line o "OK" value)).
Proof.
  intros Hrun Hnan. rewrite (check_run_main _ _ _ _ _ Hrun).
  rewrite !reaches_false; [done|..]; intros t Ht; apply leb_nan;
    destruct Hnan as [Hv|[Hc Hw]]; auto.
Qed.

Lemma nan_is_OK_witness :
  main (Sample.env [Sample.at_ 60 nan]) Sample.check_db1 initial_world
  = (SystemExit (Some 0), printed Sample.fetched (status_line Sample.check_db1 "OK" nan)).
Proof.
  apply (nan_is_OK (Sample.env [Sample.at_ 60 nan]) Sample.check_db1
           initial_world nan Sample.fetched (check_run_single _ _ nan)).
  left. reflexivity.
Defined.

(** X4.  With a critical threshold that is not above the warning threshold,
    WARNING is never reported: the outcome is CRITICAL when the value
    reaches the critical threshold and OK otherwise. *)
Theorem inverted_thresholds_never_WARNING env o w value w2 c wn :
  check_run env o w value w2 ->
  options.crit o = Some c ->
  options.warn o = Some wn ->
  PrimFloat.leb c wn = true ->
  main env o w
  = if PrimFloat.leb c value
    then (SystemExit (Some 2), printed w2 (status_line o "CRITICAL" value))
    else (SystemExit (Some 0), printed w2 (status_line o "OK" value)).
Proof.
  intros Hrun Hcrit Hwarn Hcw. rewrite (check_run_main _ _ _ _ _ Hrun).
  unfold reaches, PyFloat.ge. rewrite Hcrit, Hwarn.
  destruct (PrimFloat.leb c value) eqn:Hc; [done|].
  destruct (PrimFloat.leb wn value) eqn:Hw; [|done].
  by rewrite (leb_trans _ _ _ Hcw Hw) in Hc.
Qed.

Lemma inverted_thresholds_never_WARNING_witness :
  main (Sample.env [Sample.at_ 60 75.5])
    (Sample.check (Some "db1") (Some "CPUUtilization") (Some 90%float) (Some 80%float))
    initial_world
  = (SystemExit (Some 0),
     printed Sample.fetched
       (status_line (Sample.check (Some "db1") (Some "CPUUtilization")
                       (Some 90%float) (Some 80%float)) "OK" 75.5)).
Proof.
  apply (inverted_thresholds_never_WARNING (Sample.env [Sample.at_ 60 75.5])
           (Sample.check (Some "db1") (Some "CPUUtilization") (Some 90%float) (Some 80%float))
           initial_world 75.5 Sample.fetched 80 90 (check_run_single _ _ 75.5));
    reflexivity.
Defined.

(** X5.  The status never gets milder as the value grows: of two runs with
    the same thresholds, the one with the larger value exits with a status
    at least as severe. *)
Theorem status_monotone env o w value w2 env' o' w' value' w2' :
  check_run env o w value w2 ->
  check_run env' o' w' value' w2' ->
  options.crit o' = options.crit o ->
  options.warn o' = options.warn o ->
  PrimFloat.leb value value' = true ->
  exit_status (fst (main env o w)) <= exit_status (fst (main env' o' w')).
Proof.
  intros Hrun Hrun' Hcrit Hwarn Hle.
  rewrite (check_run_main _ _ _ _ _ Hrun), (check_run_main _ _ _ _ _ Hrun'), Hcrit, Hwarn.
  assert (Hup : forall threshold,
            reaches threshold value = true -> reaches threshold value' = true).
  { intros threshold Hr. apply reaches_iff in Hr as (t & Ht & Htv).
    apply reaches_iff. exists t. eauto using leb_trans. }
  destruct (reaches (options.crit o) value) eqn:Hc.
  { by rewrite (Hup _ Hc). }
  destruct (reaches (options.warn o) value) eqn:Hw.
  { rewrite (Hup _ Hw). by destruct (reaches (options.crit o) value'). }
  destruct (reaches (options.crit o) value'); [done|].
  by destruct (reaches (options.warn o) value').
Qed.

Lemma status_monotone_witness :
  exit_status (fst (main (Sample.env [Sample.at_ 60 12.345]) Sample.check_db1 initial_world))
  <= exit_status (fst (main (Sample.env [Sample.at_ 60 75.5]) Sample.check_db1 initial_world)).
Proof.
  apply (status_monotone _ _ _ _ _ _ _ _ _ _
           (check_run_single _ _ 12.345) (check_run_single _ _ 75.5));
    reflexivity.
Defined.

(** ** The metric fetch *)

(** X6.  Whatever the provider answers, [get_metric] makes exactly one
    remote call and writes nothing on standard error; it returns normally
    unless the call raises an exception that is not a [ClientError], which
    it lets through unchanged.  In particular [sorted_datapoints[0]] never
    raises and [get_metric] never exits. *)
Theorem get_metric_one_call self metric start_time end_time step w :
  let response := get_metric_statistics (RDS.cloudwatch_client self)
                    metric start_time end_time step (RDS.identifier self) in
  let fetch := GetMetricStatistics metric start_time end_time step (RDS.identifier self) in
  let run := RDS.get_metric self metric start_time end_time step w in
  calls (snd run) = calls w ++ [fetch] /\
  stderr (snd run) = stderr w /\
  match response with
  | inl (OtherException error) => run = (Raised (OtherException error), called w fetch)
  | _ => exists value, fst run = Normal value
  end.
Proof.
  intros response fetch run. subst response fetch run.
  pose proof (get_metric_cases self metric start_time end_time step w) as Hcases.
  cbv zeta in Hcases.
  destruct (get_metric_statistics _ _ _ _ _ _) as [[error|error]|[[|x l]|]];
    [destruct Hcases as (logged & _ & ->)
    |rewrite Hcases
    |destruct Hcases as (logged & _ & ->)
    |destruct Hcases as (d & _ & ->)
    |destruct Hcases as (logged & _ & ->)];
    repeat split; simpl; eauto.
Qed.

(** X7.  When the provider returns samples, the value [get_metric] returns
    is the rounded average of one of them, and none of the samples is later
    than that one; nothing is printed. *)
Theorem get_metric_returns_a_latest self metric start_time end_time step l w :
  get_metric_statistics (RDS.cloudwatch_client self)
    metric start_time end_time step (RDS.identifier self) = inr (Some l) ->
  l <> [] ->
  exists d,
    d ∈ l /\
    (forall x, x ∈ l -> Timestamp x <= Timestamp d) /\
    RDS.get_metric self metric start_time end_time step w
    = (Normal (Some (PyFloat.round2 (Average d))),
       called w (GetMetricStatistics metric start_time end_time step (RDS.identifier self))).
Proof.
  intros Hresponse Hne. destruct l as [|x l]; [done|].
  destruct (first_greatest_exists Timestamp x l) as (before & d & after & Heq & Hb & Ha).
  exists d. split; [|split].
  - rewrite Heq. apply elem_of_app. right. apply elem_of_cons. by left.
  - intros y Hy. rewrite Heq in Hy. apply elem_of_app in Hy as [Hy|Hy].
    + rewrite Forall_forall in Hb. specialize (Hb _ Hy). simpl in Hb. lia.
    + apply elem_of_cons in Hy as [->|Hy]; [lia|].
      rewrite Forall_forall in Ha. by apply Ha.
  - apply (get_metric_value _ _ _ _ _ _ d w Hresponse). by exists before, after.
Qed.

Lemma get_metric_returns_a_latest_witness :
  exists d,
    d ∈ Sample.three /\
    (forall x, x ∈ Sample.three -> Timestamp x <= Timestamp d) /\
    RDS.get_metric (Sample.rds Sample.three None (Some "db1"))
      (Some "CPUUtilization") 0 300 60 initial_world
    = (Normal (Some (PyFloat.round2 (Average d))),
       called initial_world (GetMetricStatistics (Some "CPUUtilization") 0 300 60 (Some "db1"))).
Proof.
  apply (get_metric_returns_a_latest (Sample.rds Sample.three None (Some "db1"))
           (Some "CPUUtilization") 0 300 60 Sample.three initial_world);
    [reflexivity | discriminate].
Defined.

(** ** The constructor *)

(** X8.  When the provider describes several instances for the identifier,
    the constructor keeps the first and drops the others: info mode prints
    the first descriptor only. *)
Theorem info_mode_prints_first_instance env o w rc cw d ds :
  boto3_Session env (options.profile o) (options.region o) = inr (rc, cw) ->
  options.list o = false ->
  options.printinfo o = true ->
  truthy_str (options.ident o) = true ->
  describe_db_instances rc (options.ident o) = inr (d :: ds) ->
  d <> [] ->
  main env o w
  = (SystemExit None,
     printed (called w (DescribeDBInstances (options.ident o))) [Pformat_descriptor (Some d)]).
Proof.
  intros HS Hlist Hinfo Hident Hd Hne.
  rewrite main_dispatch, (bind_Normal _ _ _ _ _ (init_found _ _ _ _ _ _ _ _ w HS Hident Hd)).
  unfold mode_of. rewrite Hlist, Hinfo. simpl. unfold info_mode. simpl.
  by destruct d.
Qed.

Lemma info_mode_prints_first_instance_witness :
  main Edge.two_instances Sample.print_db1 initial_world
  = (SystemExit None, printed Sample.described [Pformat_descriptor (Some Sample.db1)]).
Proof.
  apply (info_mode_prints_first_instance Edge.two_instances Sample.print_db1 initial_world
           {| describe_db_instances := fun _ => inr [Sample.db1; Sample.db2] |}
           (Sample.cloudwatch Sample.three) Sample.db1 [Sample.db2]);
    (reflexivity || discriminate).
Defined.

(** X9.  A describe call that succeeds with an empty list of instances makes
    [response['DBInstances'][0]] raise [IndexError], which the constructor
    does not catch: in every mode the run ends there with a traceback, exit
    status 1, nothing printed. *)
Theorem empty_describe_raises_IndexError env o w rc cw :
  boto3_Session env (options.profile o) (options.region o) = inr (rc, cw) ->
  truthy_str (options.ident o) = true ->
  describe_db_instances rc (options.ident o) = inr [] ->
  main env o w = (Raised IndexError, called w (DescribeDBInstances (options.ident o))) /\
  exit_status (fst (main env o w)) = 1.
Proof.
  intros HS Hident Hd.
  pose proof (init_outcome env (options.region o) (options.profile o) (options.ident o) w)
    as Hinit.
  rewrite HS, Hident, Hd in Hinit. cbv zeta in Hinit.
  rewrite main_dispatch, (bind_Raised _ _ _ _ _ Hinit). done.
Qed.

Lemma empty_describe_raises_IndexError_witness :
  main Edge.empty_describe Sample.check_db1 initial_world = (Raised IndexError, Sample.described) /\
  exit_status (fst (main Edge.empty_describe Sample.check_db1 initial_world)) = 1.
Proof.
  apply (empty_describe_raises_IndexError Edge.empty_describe Sample.check_db1 initial_world
           {| describe_db_instances := fun _ => inr [] |} (Sample.cloudwatch Sample.three));
    reflexivity.
Defined.

(** X10.  When the session or one of its clients cannot be set up, the
    exception ends the run at once, in every mode: nothing is printed and
    no remote call is made. *)
Theorem session_failure_ends_run env o w e :
  boto3_Session env (options.profile o) (options.region o) = inl e ->
  main env o w = (Raised e, w).
Proof.
  intros HS.
  pose proof (init_outcome env (options.region o) (options.profile o) (options.ident o) w)
    as Hinit.
  rewrite HS in Hinit. by rewrite main_dispatch, (bind_Raised _ _ _ _ _ Hinit).
Qed.

Lemma session_failure_ends_run_witness :
  main Edge.no_session Sample.list_all initial_world
  = (Raised (OtherException "ProfileNotFound"), initial_world).
Proof.
  apply (session_failure_ends_run Edge.no_session Sample.list_all initial_world). reflexivity.
Defined.

(** ** Whole runs *)

(** An exception raised by the fetch ends the check. *)
Lemma threshold_check_raised env rds o w1 e w2 :
  truthy_str (options.ident o) = true ->
  truthy_str (options.metric o) = true ->
  RDS.get_metric rds (options.metric o) (utcnow env - timedelta_minutes 5) (utcnow env) 60 w1
  = (Raised e, w2) ->
  threshold_check_mode env rds o w1 = (Raised e, w2).
Proof.
  intros Hident Hmetric Hfetch. unfold threshold_check_mode.
  rewrite Hident, Hmetric. simpl.
  unfold bind at 1. unfold ret at 1.
  by rewrite (bind_Raised _ _ _ _ _ Hfetch).
Qed.

(** How a mode ends, and the remote calls it makes, for a client built for
    the identifier of the options. *)
Lemma run_mode_outcome m env rds o w1 :
  RDS.identifier rds = options.ident o ->
  let part :=
    match m with
    | ListMode => [DescribeDBInstances None]
    | InfoMode => []
    | ThresholdCheckMode =>
        if truthy_str (options.ident o) && truthy_str (options.metric o)
        then [fetch_call env o] else []
    end in
  let run := run_mode m env rds o w1 in
  calls (snd run) = calls w1 ++ part /\
  match fst run with
  | Normal _ => False
  | SystemExit code => exit_status (SystemExit (A := unit) code) ∈ [0; 1; 2; 3]
  | Raised e => exists message, e = OtherException message
  end.
Proof.
  intros Hid part run. subst part run. destruct m; simpl.
  - unfold list_mode. pose proof (get_list_outcome rds w1) as Hlist. cbv zeta in Hlist.
    destruct (describe_db_instances (RDS.rds_client rds) None) as [[error|error]|l].
    + rewrite (bind_Normal _ _ _ _ _ Hlist). simpl. split; [done|]. status_code.
    + rewrite (bind_Raised _ _ _ _ _ Hlist). simpl. split; [done|]. by eexists.
    + rewrite (bind_Normal _ _ _ _ _ Hlist). simpl. split; [done|]. status_code.
  - split; [by rewrite app_nil_r|]. status_code.
  - destruct (truthy_str (options.ident o)) eqn:Hident;
      [destruct (truthy_str (options.metric o)) eqn:Hm|]; simpl.
    + pose proof (get_metric_cases rds (options.metric o)
                    (utcnow env - timedelta_minutes 5) (utcnow env) 60 w1) as Hcases.
      cbv zeta in Hcases. unfold fetch_call. rewrite <- Hid.
      destruct (get_metric_statistics _ _ _ _ _ _) as [[error|error]|[[|x l]|]];
        [destruct Hcases as (logged & _ & Hfetch)
        |
        |destruct Hcases as (logged & _ & Hfetch)
        |destruct Hcases as (d & _ & Hfetch)
        |destruct Hcases as (logged & _ & Hfetch)];
        try (rewrite (threshold_check_fetched _ _ _ _ _ _ Hident Hm Hfetch);
             simpl; split; [done|status_code]).
      * rewrite (threshold_check_raised _ _ _ _ _ _ Hident Hm Hcases).
        simpl. split; [done|]. by eexists.
      * rewrite (threshold_check_fetched _ _ _ _ _ _ Hident Hm Hfetch).
        destruct (reaches (options.crit o) _);
          [|destruct (reaches (options.warn o) _)];
          simpl; (split; [done|status_code]).
    + unfold threshold_check_mode. rewrite Hident, Hm. simpl.
      split; [by rewrite app_nil_r|]. status_code.
    + unfold threshold_check_mode. rewrite Hident. simpl.
      split; [by rewrite app_nil_r|]. status_code.
Qed.

(** X11.  The remote calls of a run are determined by the options: the
    describe of the identifier when one is set, then the describe of all
    instances in list mode, or, in threshold-check mode with identifier and
    metric set, one metric fetch for that metric and identifier over the
    five minutes before the current time with a period of 60 seconds.  A run
    makes these calls in this order, stopping early only when it ends with
    an exception; it never makes more than two, and never fetches a metric
    in list or info mode. *)
Theorem main_remote_calls env o w :
  exists made,
    calls (snd (main env o w)) = calls w ++ made /\
    made `prefix_of` expected_calls env o /\
    (forall code, fst (main env o w) = SystemExit code -> made = expected_calls env o) /\
    (length (expected_calls env o) <= 2)%nat /\
    (fetch_call env o ∈ expected_calls env o ->
     mode_of o = ThresholdCheckMode /\ truthy_str (options.ident o) = true /\
     truthy_str (options.metric o) = true).
Proof.
  assert (Hlen : (length (expected_calls env o) <= 2)%nat).
  { unfold expected_calls.
    destruct (truthy_str (options.ident o)), (mode_of o), (truthy_str (options.metric o));
      simpl; lia. }
  assert (Hfetch : fetch_call env o ∈ expected_calls env o ->
                   mode_of o = ThresholdCheckMode /\ truthy_str (options.ident o) = true /\
                   truthy_str (options.metric o) = true).
  { unfold expected_calls, fetch_call.
    destruct (truthy_str (options.ident o)), (mode_of o), (truthy_str (options.metric o));
      simpl; rewrite ?elem_of_cons, ?elem_of_nil; intros H; try done;
      repeat (destruct H as [H|H]; try done). }
  cut (exists made,
         calls (snd (main env o w)) = calls w ++ made /\
         made `prefix_of` expected_calls env o /\
         (forall code, fst (main env o w) = SystemExit code -> made = expected_calls env o)).
  { intros (made & H1 & H2 & H3). exists made. auto. }
  pose proof (init_outcome env (options.region o) (options.profile o) (options.ident o) w)
    as Hinit.
  rewrite main_dispatch. unfold expected_calls.
  destruct (boto3_Session _ _ _) as [e|[rc cw]].
  { rewrite (bind_Raised _ _ _ _ _ Hinit). exists []. simpl.
    rewrite app_nil_r. split; [done|]. split; [apply prefix_nil|done]. }
  cbv zeta in Hinit.
  assert (Hmode : forall rds w1 first,
            RDS.identifier rds = options.ident o ->
            RDS.__init__ env (options.region o) (options.profile o) (options.ident o) w
            = (Normal rds, w1) ->
            calls w1 = calls w ++ first ->
            let run := bind (RDS.__init__ env (options.region o) (options.profile o)
                               (options.ident o))
                            (fun rds => run_mode (mode_of o) env rds o) w in
            let rest := match mode_of o with
                        | ListMode => [DescribeDBInstances None]
                        | InfoMode => []
                        | ThresholdCheckMode =>
                            if truthy_str (options.ident o) && truthy_str (options.metric o)
                            then [fetch_call env o] else []
                        end in
            exists made,
              calls (snd run) = calls w ++ made /\
              made `prefix_of` first ++ rest /\
              (forall code, fst run = SystemExit code -> made = first ++ rest)).
  { intros rds w1 first Hid Hnormal Hfirst run rest. subst run rest.
    rewrite (bind_Normal _ _ _ _ _ Hnormal).
    destruct (run_mode_outcome (mode_of o) env rds o w1 Hid) as [Hcalls _].
    eexists. split; [by rewrite Hcalls, Hfirst, <- (assoc_L (++))|]. done. }
  destruct (truthy_str (options.ident o)) eqn:Hident.
  - destruct (describe_db_instances rc (options.ident o)) as [[error|error]|[|d ds]].
    + eapply (Hmode _ _ [DescribeDBInstances (options.ident o)]); [|exact Hinit|]; done.
    + rewrite (bind_Raised _ _ _ _ _ Hinit). exists [DescribeDBInstances (options.ident o)].
      split; [done|]. split; [by apply prefix_app_r|done].
    + rewrite (bind_Raised _ _ _ _ _ Hinit). exists [DescribeDBInstances (options.ident o)].
      split; [done|]. split; [by apply prefix_app_r|done].
    + eapply (Hmode _ _ [DescribeDBInstances (options.ident o)]); [|exact Hinit|]; done.
  - eapply (Hmode _ _ []); [|exact Hinit|]; [done|]. by rewrite app_nil_r.
Qed.

(** X12.  [main] never returns: every run ends in [sys.exit], in the usage
    error, or in an exception.  When it exits, the status is one of 0, 1, 2
    and 3.  When it ends in an exception, that exception was raised by the
    set-up of the session, or is not a [ClientError]: a [ClientError] raised
    by a remote call never escapes. *)
Theorem main_outcomes env o w :
  match fst (main env o w) with
  | Normal _ => False
  | SystemExit code => exit_status (SystemExit (A := unit) code) ∈ [0; 1; 2; 3]
  | Raised e =>
      boto3_Session env (options.profile o) (options.region o) = inl e \/
      exists message, e = OtherException message
  end.
Proof.
  pose proof (init_outcome env (options.region o) (options.profile o) (options.ident o) w)
    as Hinit.
  rewrite main_dispatch.
  destruct (boto3_Session _ _ _) as [e|[rc cw]].
  { rewrite (bind_Raised _ _ _ _ _ Hinit). by left. }
  cbv zeta in Hinit.
  assert (Hmode : forall rds w1,
            RDS.identifier rds = options.ident o ->
            match fst (run_mode (mode_of o) env rds o w1) with
            | Normal _ => False
            | SystemExit code => exit_status (SystemExit (A := unit) code) ∈ [0; 1; 2; 3]
            | Raised e => inr (rc, cw) = inl e \/ exists message, e = OtherException message
            end).
  { intros rds w1 Hid.
    destruct (run_mode_outcome (mode_of o) env rds o w1 Hid) as [_ Hout].
    destruct (fst (run_mode (mode_of o) env rds o w1)); auto. }
  destruct (truthy_str (options.ident o)).
  - destruct (describe_db_instances rc (options.ident o)) as [[error|error]|[|d ds]].
    + rewrite (bind_Normal _ _ _ _ _ Hinit). by apply Hmode.
    + rewrite (bind_Raised _ _ _ _ _ Hinit). right. by eexists.
    + rewrite (bind_Raised _ _ _ _ _ Hinit). right. by eexists.
    + rewrite (bind_Normal _ _ _ _ _ Hinit). by apply Hmode.
  - rewrite (bind_Normal _ _ _ _ _ Hinit). by apply Hmode.
Qed.

(** ** List and info mode *)

(** X13.  [get_list] returns the empty mapping only after a provider error:
    when the call succeeds, even with no instance at all, the mapping has
    the region as its one key. *)
Theorem get_list_empty_only_on_error self w :
  no_OtherException (describe_db_instances (RDS.rds_client self) None) ->
  (fst (RDS.get_list self w) = Normal ∅ <->
   exists error, describe_db_instances (RDS.rds_client self) None = inl (ClientError error)) /\
  (forall l, describe_db_instances (RDS.rds_client self) None = inr l ->
             exists m, fst (RDS.get_list self w) = Normal m /\
                       m !! RDS.region self = Some l /\ size m = 1%nat).
Proof.
  intros Hno. pose proof (get_list_outcome self w) as Hlist. cbv zeta in Hlist.
  destruct (describe_db_instances (RDS.rds_client self) None) as [[error|error]|l];
    [|done|]; rewrite Hlist; simpl.
  - split; [|done]. split; [by eexists|done].
  - split.
    + split; [|by intros [error ?]].
      intros Heq.
      assert (Hempty : {[ RDS.region self := l ]} = (∅ : gmap string (list descriptor)))
        by congruence.
      by apply map_non_empty_singleton in Hempty.
    + intros l' [= <-]. eexists. split; [done|].
      split; [apply lookup_singleton_eq|apply map_size_singleton].
Qed.

Lemma get_list_empty_only_on_error_witness :
  exists m, fst (RDS.get_list (Sample.rds [] None None) initial_world) = Normal m /\
            m !! "us-east-1" = Some [Sample.db1; Sample.db2] /\ size m = 1%nat.
Proof.
  apply (proj2 (get_list_empty_only_on_error (Sample.rds [] None None) initial_world I)
           [Sample.db1; Sample.db2]).
  reflexivity.
Defined.

(** X14.  Info mode reports "not found", and exits with status 0, in three
    cases: no identifier is given (no remote call is made, and the message
    names [None] or the empty string); the describe call fails with a
    provider error (its error line comes first); the first descriptor
    returned is an empty dictionary. *)
Theorem info_mode_not_found env o w rc cw :
  boto3_Session env (options.profile o) (options.region o) = inr (rc, cw) ->
  options.list o = false ->
  options.printinfo o = true ->
  (truthy_str (options.ident o) = false ->
   main env o w = (SystemExit None, printed w (not_found_line o))) /\
  (forall error,
     truthy_str (options.ident o) = true ->
     describe_db_instances rc (options.ident o) = inl (ClientError error) ->
     main env o w
     = (SystemExit None,
        printed (printed (called w (DescribeDBInstances (options.ident o)))
                         [Text ("Error retrieving RDS instance: " ++ error)])
                (not_found_line o))) /\
  (forall ds,
     truthy_str (options.ident o) = true ->
     describe_db_instances rc (options.ident o) = inr ([] :: ds) ->
     main env o w
     = (SystemExit None,
        printed (called w (DescribeDBInstances (options.ident o))) (not_found_line o))).
Proof.
  intros HS Hlist Hinfo.
  assert (Hmode : mode_of o = InfoMode) by (unfold mode_of; by rewrite Hlist, Hinfo).
  rewrite main_dispatch, Hmode. split; [|split].
  - intros Hident.
    by rewrite (bind_Normal _ _ _ _ _ (init_no_identifier _ _ _ _ _ _ w HS Hident)).
  - intros error Hident Hd.
    by rewrite (bind_Normal _ _ _ _ _ (init_ClientError _ _ _ _ _ _ _ w HS Hident Hd)).
  - intros ds Hident Hd.
    by rewrite (bind_Normal _ _ _ _ _ (init_found _ _ _ _ _ _ _ _ w HS Hident Hd)).
Qed.

Lemma info_mode_not_found_witness :
  main (Sample.env []) Edge.print_nothing initial_world
  = (SystemExit None,
     printed initial_world [Text ("No DB instance " ++ dquote ++ "None" ++ dquote ++ " found.")]).
Proof.
  apply (proj1 (info_mode_not_found (Sample.env []) Edge.print_nothing initial_world
                  Sample.rds_client (Sample.cloudwatch []) eq_refl eq_refl eq_refl)).
  reflexivity.
Defined.

(** ** Threshold-check mode *)

(** X15.  A provider error in the constructor's describe call does not stop
    the check: its error line is printed, the metric is still fetched, and
    the status line and exit status are those of the value fetched. *)
Theorem describe_error_does_not_stop_check env o w rc cw error l d :
  boto3_Session env (options.profile o) (options.region o) = inr (rc, cw) ->
  mode_of o = ThresholdCheckMode ->
  truthy_str (options.ident o) = true ->
  truthy_str (options.metric o) = true ->
  describe_db_instances rc (options.ident o) = inl (ClientError error) ->
  get_metric_statistics cw (options.metric o) (utcnow env - timedelta_minutes 5)
    (utcnow env) 60 (options.ident o) = inr (Some l) ->
  first_latest l d ->
  let value := PyFloat.round2 (Average d) in
  let w2 := called (printed (called w (DescribeDBInstances (options.ident o)))
                            [Text ("Error retrieving RDS instance: " ++ error)])
                   (fetch_call env o) in
  check_run env o w value w2 /\
  exists status word,
    main env o w = (SystemExit (Some status), printed w2 (status_line o word value)).
Proof.
  intros HS Hmode Hident Hmetric Hd Hresponse Hlatest value w2.
  assert (Hrun : check_run env o w value w2).
  { repeat split; try done. eexists _, _.
    split; [by apply init_ClientError|].
    subst value w2. unfold fetch_call.
    by apply (get_metric_value
                {| RDS.region := options.region o; RDS.profile := options.profile o;
                   RDS.identifier := options.ident o; RDS.rds_client := rc;
                   RDS.cloudwatch_client := cw; RDS.info := None |}
                _ _ _ _ l d). }
  split; [done|]. rewrite (check_run_main _ _ _ _ _ Hrun).
  destruct (reaches (options.crit o) value); [by eexists _, _|].
  destruct (reaches (options.warn o) value); by eexists _, _.
Qed.

Lemma describe_error_does_not_stop_check_witness :
  exists status word,
    main Edge.describe_denied Sample.check_db1 initial_world
    = (SystemExit (Some status),
       printed (called (printed Sample.described
                                [Text ("Error retrieving RDS instance: " ++ Sample.denied)])
                       Sample.fetch)
               (status_line Sample.check_db1 word 92.1)).
Proof.
  apply (describe_error_does_not_stop_check Edge.describe_denied Sample.check_db1 initial_world
           {| describe_db_instances := fun _ => inl (ClientError Sample.denied) |}
           (Sample.cloudwatch Sample.three) Sample.denied Sample.three (Sample.at_ 180 92.1));
    try reflexivity.
  exists [Sample.at_ 60 10.5], [Sample.at_ 120 55.25].
  split; [reflexivity|]. split; (constructor; [simpl; lia|constructor]).
Defined.

(** X16.  In threshold-check mode without an identifier (none given, or
    the empty string), the run ends in the usage error [DB identifier is
    not set.] with exit status 2, whether or not a metric is given, with no
    remote call and nothing on standard output; this is what the program
    does when it is started with no argument at all. *)
Theorem no_identifier_usage_error env o w rc cw :
  boto3_Session env (options.profile o) (options.region o) = inr (rc, cw) ->
  mode_of o = ThresholdCheckMode ->
  truthy_str (options.ident o) = false ->
  main env o w = (SystemExit (Some 2), usage_error w "DB identifier is not set.").
Proof.
  intros HS Hmode Hident.
  rewrite (main_usage_error env o w _ w Hmode (or_introl Hident)
             (init_no_identifier _ _ _ _ _ _ w HS Hident)).
  by rewrite Hident.
Qed.

Lemma no_identifier_usage_error_witness :
  main (Sample.env []) defaults initial_world
  = (SystemExit (Some 2), usage_error initial_world "DB identifier is not set.").
Proof.
  apply (no_identifier_usage_error (Sample.env []) defaults initial_world
           Sample.rds_client (Sample.cloudwatch [])); reflexivity.
Defined.

Lemma main_remote_calls_witness :
  calls (snd (main (Sample.env Sample.three) Sample.check_db1 initial_world))
  = [DescribeDBInstances (Some "db1"); Sample.fetch].
Proof.
  destruct (main_remote_calls (Sample.env Sample.three) Sample.check_db1 initial_world)
    as (made & Hcalls & _ & Hexit & _).
  rewrite Hcalls, (Hexit (Some 2) eq_refl). reflexivity.
Defined.
